(** * Doubling Speed Tracker

    A shallow embedding of the two pieces of logic of [src/App.tsx]: the
    doubling-rate estimator ([calculateDoublingRate]) and the handlers that
    mutate the list of metrics ([addMetric], [addValueEntry],
    [deleteMetric]), followed by the properties the specification states
    about them.

    Conventions of the embedding.
    - A JavaScript [number] that takes part in floating-point arithmetic
      (sample values, base values, time arithmetic of the estimator) is an
      IEEE-754 binary64 value: Rocq's primitive [float], whose operations
      are the ones JavaScript uses ([/], [<], [-], [*], [+]).
    - Metric ids are integral numbers (1, 2, 3, then [max + 1]); they are
      modelled as [Z], and the one addition made on them rounds as the
      binary64 addition does ([roundInteger]): it is exact up to 2^53.
    - Strings are sequences of 8-bit code units ([string]).
    - What the browser provides and the repository does not define
      ([Math.log2], [Date] parsing and formatting, [parseFloat], the
      formatting of numbers of magnitude 1e21 and more) is a field of the
      record [Runtime]; the clock is an argument of the handler that reads
      it, one day for each time it is read. *)

From Stdlib Require Import ZArith List String Ascii Bool Lia.
From Stdlib Require Import Floats DecimalString.
From Stdlib Require Import Sorted Permutation.
Import ListNotations.

(** ** JavaScript values and built-ins *)

Module JS.

Definition number := float.

(** The [number] nearest to an integer (ties to even); exact below 2^53. *)
Definition number_of_Z (z : Z) : number :=
  SF2Prim (binary_normalize prec emax z 0 false).

(** The integral binary64 number nearest to an integer (ties to even): the
    integer itself up to magnitude 2^53, and beyond that a multiple of the
    power of two that leaves 53 significant bits. *)
Definition roundInteger (z : Z) : Z :=
  let a := Z.abs z in
  if (a <=? 2 ^ 53)%Z then z
  else
    let e := (Z.log2 a - 52)%Z in
    let q := (a / 2 ^ e)%Z in
    let r := (a mod 2 ^ e)%Z in
    let half := (2 ^ (e - 1))%Z in
    let q' :=
      if (r <? half)%Z then q
      else if (half <? r)%Z then (q + 1)%Z
      else if Z.even q then q else (q + 1)%Z in
    (Z.sgn z * (q' * 2 ^ e))%Z.

(** The time value of a [Date]: an integral number of milliseconds since the
    epoch, or [None] for an invalid date (whose [getTime()] is NaN). *)
Definition timeValue := option Z.

Definition number_of_time (t : timeValue) : number :=
  match t with
  | Some ms => number_of_Z ms
  | None => nan
  end.

(** *** [String.prototype.trim] *)

(** White space and line terminators among the 8-bit code units: TAB, LF,
    VT, FF, CR, SP and NBSP (the other white space of JavaScript lies above
    the code unit 255). *)
Definition isWhiteSpace (c : ascii) : bool :=
  let n := nat_of_ascii c in
  ((n =? 9) || (n =? 10) || (n =? 11) || (n =? 12) || (n =? 13)
   || (n =? 32) || (n =? 160))%nat.

Fixpoint trimStart (s : string) : string :=
  match s with
  | EmptyString => EmptyString
  | String c s' => if isWhiteSpace c then trimStart s' else s
  end.

Fixpoint trimEnd (s : string) : string :=
  match s with
  | EmptyString => EmptyString
  | String c s' =>
      match trimEnd s' with
      | EmptyString => if isWhiteSpace c then EmptyString else String c EmptyString
      | t => String c t
      end
  end.

Definition trim (s : string) : string := trimEnd (trimStart s).

Fixpoint allWhiteSpace (s : string) : bool :=
  match s with
  | EmptyString => true
  | String c s' => isWhiteSpace c && allWhiteSpace s'
  end.

(** *** [Number.prototype.toFixed] *)

Definition digits (n : Z) : string :=
  NilZero.string_of_uint (N.to_uint (Z.to_N n)).

Fixpoint zeros (k : nat) : string :=
  match k with
  | O => EmptyString
  | S k' => String "0" (zeros k')
  end.

(** The decimal digits of [n] with a point before the last [f] of them,
    padded with zeros on the left so that a digit precedes the point. *)
Definition pointed (n : Z) (f : nat) : string :=
  let m := digits n in
  match f with
  | O => m
  | _ =>
      let m := if (String.length m <=? f)%nat
               then (zeros (f + 1 - String.length m) ++ m)%string else m in
      let k := String.length m in
      (substring 0 (k - f) m ++ "." ++ substring (k - f) f m)%string
  end.

(** The integer [n] for which [n / 10^f] is closest to [m * 2^e], the larger
    one when two are as close. *)
Definition nearest (m : positive) (e : Z) (f : nat) : Z :=
  let s := (Zpos m * 10 ^ Z.of_nat f)%Z in
  if (0 <=? e)%Z then (s * 2 ^ e)%Z
  else ((2 * s + 2 ^ (- e)) / (2 * 2 ^ (- e)))%Z.

(** Is [m * 2^e] at least 10^21 ? *)
Definition atLeast1e21 (m : positive) (e : Z) : bool :=
  if (0 <=? e)%Z then (10 ^ 21 <=? Zpos m * 2 ^ e)%Z
  else (10 ^ 21 * 2 ^ (- e) <=? Zpos m)%Z.

Section ToFixed.

(** [Number::toString], used by [toFixed] from 1e21 on. *)
Variable Number_toString : number -> string.

Definition toFixed (x : number) (fractionDigits : nat) : string :=
  match Prim2SF x with
  | S754_nan => "NaN"
  | S754_infinity true => "-Infinity"
  | S754_infinity false => "Infinity"
  | S754_zero _ => pointed 0 fractionDigits
  | S754_finite sign m e =>
      ((if sign then "-" else "") ++
       (if atLeast1e21 m e then Number_toString (abs x)
        else pointed (nearest m e fractionDigits) fractionDigits))%string
  end.

End ToFixed.

End JS.

Import JS.

Open Scope string_scope.
Open Scope list_scope.
Open Scope Z_scope.

(** ** What the browser provides *)

Record Runtime := {
  (** [Math.log2] *)
  Math_log2 : number -> number;
  (** [new Date(s).getTime()] for a string [s] *)
  Date_getTime : string -> timeValue;
  (** [new Date(t).toLocaleDateString()] for a number [t] *)
  toLocaleDateString : number -> string;
  (** [parseFloat] *)
  parseFloat : string -> number;
  (** [Number::toString] *)
  Number_toString : number -> string
}.

(** ** The data of the application *)

Record MetricValue := {
  date : string;
  value : number
}.

Record Metric := {
  id : Z;
  name : string;
  values : list MetricValue;
  baseValue : number;
  lastUpdated : option string
}.

Record DoublingRate := {
  daysPerDoubling : string;
  monthsPerDoubling : string;
  projectedNextDouble : string
}.

(** The estimator's result type, [string | DoublingRate]. *)
Inductive Estimate :=
| Status (s : string)
| Rate (r : DoublingRate).

(** ** The estimator *)

Section Estimator.

Variable rt : Runtime.

(** [new Date(s).getTime()] as the number the arithmetic sees. *)
Definition getTime (s : string) : number :=
  number_of_time (Date_getTime rt s).

Definition calculateDoublingRate (values : list MetricValue) : Estimate :=
  if (List.length values <? 2)%nat then Status "Need more data"
  else
    match nth_error values 0, nth_error values (List.length values - 1) with
    | Some firstEntry, Some lastEntry =>
        let totalGrowth := (value lastEntry / value firstEntry)%float in
        if (totalGrowth <? 2)%float then Status "Not doubled yet"
        else
          let timeInDays :=
            ((getTime (date lastEntry) - getTime (date firstEntry))
             / (1000 * 60 * 60 * 24))%float in
          let doublings := Math_log2 rt totalGrowth in
          let days := (timeInDays / doublings)%float in
          Rate {|
            daysPerDoubling := toFixed (Number_toString rt) days 1;
            monthsPerDoubling := toFixed (Number_toString rt) (days / 30)%float 1;
            projectedNextDouble :=
              toLocaleDateString rt
                (getTime (date lastEntry) + days * 1000 * 60 * 60 * 24)%float
          |}
    | _, _ => Status "Need more data"
    end.

End Estimator.

(** ** [Array.prototype.sort] *)

(** The sort is stable and is driven by the sign of the comparator's result
    alone, a NaN result counting as zero (SortCompare).  It is modelled by
    the stable insertion sort on that sign: with a consistent comparator the
    result of a stable sort is unique, so this is the array the engine
    returns (with an inconsistent one the order is left to the engine). *)

Section ArraySort.

Context {A : Type}.

(** The comparator; [None] stands for a NaN result. *)
Variable comparefn : A -> A -> option Z.

Definition SortCompare (x y : A) : Z :=
  match comparefn x y with
  | Some v => v
  | None => 0%Z
  end.

Fixpoint insert (x : A) (l : list A) : list A :=
  match l with
  | [] => [x]
  | y :: l' =>
      if (0 <? SortCompare x y)%Z then y :: insert x l' else x :: l
  end.

Fixpoint Array_sort (l : list A) : list A :=
  match l with
  | [] => []
  | x :: l' => insert x (Array_sort l')
  end.

End ArraySort.

(** ** The state of the component and its handlers *)

Record AppState := {
  metrics : list Metric;
  newMetricName : string;
  newBaseValue : number;
  (** [number | null]; the NaN that [parseInt] can put there is falsy and
      equal to no id, as [null] is, and is represented by [None] too. *)
  selectedMetric : option Z;
  newValue : string
}.

Definition initialState : AppState := {|
  metrics :=
    [ {| id := 1; name := "Followers"; values := []; baseValue := 100%float;
         lastUpdated := None |};
      {| id := 2; name := "Revenue"; values := []; baseValue := 1000%float;
         lastUpdated := None |};
      {| id := 3; name := "Customers"; values := []; baseValue := 10%float;
         lastUpdated := None |} ];
  newMetricName := "";
  newBaseValue := 100%float;
  selectedMetric := None;
  newValue := ""
|}.

(** [Math.max(0, ...ids)] *)
Definition Math_max0 (ids : list Z) : Z := fold_left Z.max ids 0%Z.

Definition addMetric (st : AppState) : AppState :=
  if (trim (newMetricName st) =? "")%string then st
  else {|
    metrics :=
      metrics st ++
      [ {| id := roundInteger (Math_max0 (map id (metrics st)) + 1);
           name := newMetricName st;
           values := [];
           baseValue := newBaseValue st;
           lastUpdated := None |} ];
    newMetricName := "";
    newBaseValue := 100%float;
    selectedMetric := selectedMetric st;
    newValue := newValue st
  |}.

(** [!selectedMetric] *)
Definition falsy (sel : option Z) : bool :=
  match sel with
  | None => true
  | Some n => (n =? 0)%Z
  end.

(** [metric.id === selectedMetric] *)
Definition isSelected (sel : option Z) (metric : Metric) : bool :=
  match sel with
  | None => false
  | Some n => (id metric =? n)%Z
  end.

Section Handlers.

Variable rt : Runtime.

(** The comparator of the sort: the difference of the two time values.
    Both are integers of magnitude at most 8.64e15, so the sign of the
    difference computed in binary64 is the sign of the exact one. *)
Definition byDate (a b : MetricValue) : option Z :=
  match Date_getTime rt (date a), Date_getTime rt (date b) with
  | Some ta, Some tb => Some (ta - tb)%Z
  | _, _ => None
  end.

(** The clock of one call of the handler: [clock n] is what
    [new Date().toISOString().split("T")[0]] gives, the UTC day, the [n]-th
    time the call evaluates it (counting from 0). *)
Definition Clock := nat -> string.

(** [metrics.map(...)]: the metrics are visited in order; a selected metric
    reads the clock once for the date of its new sample and once more for
    its [lastUpdated].  [reads] counts the reads made so far. *)
Fixpoint updatedMetrics (clock : Clock) (sel : option Z) (typed : string)
    (reads : nat) (ms : list Metric) : list Metric :=
  match ms with
  | [] => []
  | metric :: rest =>
      if isSelected sel metric then
        let newValues :=
          Array_sort byDate
            (values metric ++
             [ {| date := clock reads;
                  value := parseFloat rt typed |} ]) in
        {| id := id metric;
           name := name metric;
           values := newValues;
           baseValue := baseValue metric;
           lastUpdated := Some (clock (S reads)) |}
        :: updatedMetrics clock sel typed (S (S reads)) rest
      else metric :: updatedMetrics clock sel typed reads rest
  end.

Definition addValueEntry (clock : Clock) (st : AppState) : AppState :=
  if falsy (selectedMetric st) || (newValue st =? "")%string then st
  else
    {| metrics :=
         updatedMetrics clock (selectedMetric st) (newValue st) 0 (metrics st);
       newMetricName := newMetricName st;
       newBaseValue := newBaseValue st;
       selectedMetric := selectedMetric st;
       newValue := "" |}.

End Handlers.

Definition deleteMetric (target : Z) (st : AppState) : AppState :=
  {| metrics := filter (fun metric => negb (id metric =? target)%Z) (metrics st);
     newMetricName := newMetricName st;
     newBaseValue := newBaseValue st;
     selectedMetric := selectedMetric st;
     newValue := newValue st |}.

(** [getChartData]: the points of the chart of a metric. *)
Definition getChartData (st : AppState) (metricId : Z) : list MetricValue :=
  match find (fun m => (id m =? metricId)%Z) (metrics st) with
  | None => []
  | Some metric =>
      if (List.length (values metric) <? 2)%nat then []
      else map (fun entry => {| date := date entry; value := value entry |})
               (values metric)
  end.

(** ** The derived doubling rates *)

(** [Record<number, DoublingRate | string>]: the object is only ever read at
    a key, and is modelled by what such a read gives. *)
Definition Rates := Z -> option Estimate.

(** [{}] *)
Definition noRates : Rates := fun _ => None.

(** [rates[key] = v] *)
Definition setRate (rates : Rates) (key : Z) (v : Estimate) : Rates :=
  fun k => if (k =? key)%Z then Some v else rates k.

(** The effect that recomputes the rates whenever the metrics change. *)
Definition doublingRates (rt : Runtime) (metrics : list Metric) : Rates :=
  fold_left
    (fun newRates metric =>
       if (2 <=? List.length (values metric))%nat
       then setRate newRates (id metric)
                    (calculateDoublingRate rt (values metric))
       else newRates)
    metrics noRates.

(** ** What a card shows *)

(** "Current value": the value of the last stored sample. *)
Definition shownCurrentValue (metric : Metric) : number + string :=
  if (0 <? List.length (values metric))%nat then
    match nth_error (values metric) (List.length (values metric) - 1) with
    | Some entry => inl (value entry)
    | None => inr "No data yet"
    end
  else inr "No data yet".

(** "Last updated": [metric.lastUpdated || "Never"]. *)
Definition shownLastUpdated (metric : Metric) : string :=
  match lastUpdated metric with
  | Some d => if (d =? "")%string then "Never" else d
  | None => "Never"
  end.

(** "Doubling Rate": the rate stored for the id of the metric if it is
    truthy (a status as a paragraph, a [DoublingRate] field by field), and
    the paragraph "Need more data" otherwise. *)
Definition shownDoublingRate (rates : Rates) (metric : Metric) : Estimate :=
  match rates (id metric) with
  | Some (Status s) => if (s =? "")%string then Status "Need more data" else Status s
  | Some (Rate r) => Rate r
  | None => Status "Need more data"
  end.

(** The chart is drawn when [metric.values.length > 1], from
    [getChartData(metric.id)]. *)
Definition shownChart (st : AppState) (metric : Metric) : option (list MetricValue) :=
  if (1 <? List.length (values metric))%nat
  then Some (getChartData st (id metric)) else None.

(** ** The events of the component *)

(** The four inputs store what is typed or chosen (the base value and the
    selection after [parseInt], here already applied); the three buttons
    call the handlers. *)
Inductive Action :=
| SetNewMetricName (typed : string)
| SetNewBaseValue (parsed : number)
| SetSelectedMetric (parsed : option Z)
| SetNewValue (typed : string)
| AddMetric
| AddValueEntry (clock : Clock)
| DeleteMetric (target : Z).

Definition step (rt : Runtime) (st : AppState) (a : Action) : AppState :=
  match a with
  | SetNewMetricName typed =>
      {| metrics := metrics st; newMetricName := typed;
         newBaseValue := newBaseValue st;
         selectedMetric := selectedMetric st; newValue := newValue st |}
  | SetNewBaseValue parsed =>
      {| metrics := metrics st; newMetricName := newMetricName st;
         newBaseValue := parsed;
         selectedMetric := selectedMetric st; newValue := newValue st |}
  | SetSelectedMetric parsed =>
      {| metrics := metrics st; newMetricName := newMetricName st;
         newBaseValue := newBaseValue st;
         selectedMetric := parsed; newValue := newValue st |}
  | SetNewValue typed =>
      {| metrics := metrics st; newMetricName := newMetricName st;
         newBaseValue := newBaseValue st;
         selectedMetric := selectedMetric st; newValue := typed |}
  | AddMetric => addMetric st
  | AddValueEntry clock => addValueEntry rt clock st
  | DeleteMetric target => deleteMetric target st
  end.

(** A session: the events in the order they happen. *)
Definition run (rt : Runtime) (st : AppState) (actions : list Action) : AppState :=
  fold_left (step rt) actions st.

(** ** A concrete runtime

    A small runtime on which the statements below are instantiated: dates
    are ISO calendar days read and printed in UTC, [parseFloat] reads
    unsigned decimal integers, and [log2Step] stands for [Math.log2] (it is
    exact at 2 and monotone, which is all the estimator's guard needs). *)

Module Ref.

Definition digitValue (c : ascii) : option Z :=
  let n := Z.of_nat (nat_of_ascii c) in
  if (48 <=? n) && (n <=? 57) then Some (n - 48) else None.

Fixpoint decimal (acc : Z) (s : string) : option Z :=
  match s with
  | EmptyString => Some acc
  | String c s' =>
      match digitValue c with
      | Some d => decimal (10 * acc + d) s'
      | None => None
      end
  end.

(** Days from 1970-01-01 to the given day of the proleptic Gregorian
    calendar. *)
Definition daysFromCivil (y m d : Z) : Z :=
  let y' := if m <=? 2 then y - 1 else y in
  let era := y' / 400 in
  let yoe := y' - era * 400 in
  let doy := (153 * (if 2 <? m then m - 3 else m + 9) + 2) / 5 + d - 1 in
  let doe := yoe * 365 + yoe / 4 - yoe / 100 + doy in
  era * 146097 + doe - 719468.

Definition civilFromDays (z : Z) : Z * Z * Z :=
  let z := z + 719468 in
  let era := z / 146097 in
  let doe := z - era * 146097 in
  let yoe := (doe - doe / 1460 + doe / 36524 - doe / 146096) / 365 in
  let doy := doe - (365 * yoe + yoe / 4 - yoe / 100) in
  let mp := (5 * doy + 2) / 153 in
  let d := doy - (153 * mp + 2) / 5 + 1 in
  let m := if mp <? 10 then mp + 3 else mp - 9 in
  (yoe + era * 400 + (if m <=? 2 then 1 else 0), m, d).

Definition msPerDay : Z := 86400000.

(** [YYYY-MM-DD] to the time value of its UTC midnight. *)
Definition parseDate (s : string) : timeValue :=
  if negb (String.length s =? 10)%nat then None
  else
    match decimal 0 (substring 0 4 s), decimal 0 (substring 5 2 s),
          decimal 0 (substring 8 2 s) with
    | Some y, Some m, Some d =>
        if ((substring 4 1 s =? "-") && (substring 7 1 s =? "-"))%string
           && (1 <=? m) && (m <=? 12) && (1 <=? d) && (d <=? 31)
        then Some (daysFromCivil y m d * msPerDay)
        else None
    | _, _, _ => None
    end.

(** The integral part of a finite number, [None] otherwise. *)
Definition truncate (x : number) : option Z :=
  match Prim2SF x with
  | S754_zero _ => Some 0
  | S754_finite sign m e =>
      let a := if 0 <=? e then Zpos m * 2 ^ e else Zpos m / 2 ^ (- e) in
      Some (if sign then - a else a)
  | _ => None
  end.

(** The UTC day of a time value as month/day/year. *)
Definition formatDate (t : number) : string :=
  match truncate t with
  | Some ms =>
      if Z.abs ms <=? 8640000000000000 then
        let '(y, m, d) := civilFromDays (ms / msPerDay) in
        (digits m ++ "/" ++ digits d ++ "/" ++ digits y)%string
      else "Invalid Date"
  | None => "Invalid Date"
  end.

(** The same in a time zone that is [offset] minutes ahead of UTC (behind
    it when [offset] is negative): the local day of the time value. *)
Definition formatDateAt (offset : Z) (t : number) : string :=
  match truncate t with
  | Some ms =>
      if Z.abs ms <=? 8640000000000000 then
        let '(y, m, d) := civilFromDays ((ms + offset * 60000) / msPerDay) in
        (digits m ++ "/" ++ digits d ++ "/" ++ digits y)%string
      else "Invalid Date"
  | None => "Invalid Date"
  end.

Definition parseDecimal (s : string) : number :=
  match s, decimal 0 s with
  | String _ _, Some n => number_of_Z n
  | _, _ => nan
  end.

Definition log2Step (x : number) : number :=
  if (2 <=? x)%float then 1%float else 0%float.

Definition runtime : Runtime := {|
  Math_log2 := log2Step;
  Date_getTime := parseDate;
  toLocaleDateString := formatDate;
  parseFloat := parseDecimal;
  Number_toString := fun _ => "1e+21"
|}.

(** The same runtime in a time zone [offset] minutes ahead of UTC. *)
Definition runtimeAt (offset : Z) : Runtime := {|
  Math_log2 := log2Step;
  Date_getTime := parseDate;
  toLocaleDateString := formatDateAt offset;
  parseFloat := parseDecimal;
  Number_toString := fun _ => "1e+21"
|}.

End Ref.

(** ** Vocabulary of the statements *)

(** The value the estimator returns once both guards are passed. *)
Definition rateOf (rt : Runtime) (firstEntry lastEntry : MetricValue) : DoublingRate :=
  let totalGrowth := (value lastEntry / value firstEntry)%float in
  let elapsedDays :=
    ((getTime rt (date lastEntry) - getTime rt (date firstEntry))
     / (1000 * 60 * 60 * 24))%float in
  let days := (elapsedDays / Math_log2 rt totalGrowth)%float in
  {| daysPerDoubling := toFixed (Number_toString rt) days 1;
     monthsPerDoubling := toFixed (Number_toString rt) (days / 30)%float 1;
     projectedNextDouble :=
       toLocaleDateString rt
         (getTime rt (date lastEntry) + days * 1000 * 60 * 60 * 24)%float |}.

(** [Math.log2] is exact at 2 and monotone from 2 upwards, as a correctly
    rounded base-2 logarithm is.  (Nothing is asked below 2, where
    [Math.log2] is NaN for negative numbers.) *)
Definition log2Faithful (rt : Runtime) : Prop :=
  Math_log2 rt 2%float = 1%float /\
  forall x y : number,
    (2 <=? x)%float = true -> (x <=? y)%float = true ->
    (Math_log2 rt x <=? Math_log2 rt y)%float = true.

Definition doubled : list MetricValue :=
  [ {| date := "2024-01-01"; value := 100%float |};
    {| date := "2024-02-01"; value := 200%float |} ].

Definition notDoubled : list MetricValue :=
  [ {| date := "2024-01-01"; value := 100%float |};
    {| date := "2024-01-11"; value := 150%float |} ].

Definition negativeBase : list MetricValue :=
  [ {| date := "2024-01-01"; value := (-1)%float |};
    {| date := "2024-01-11"; value := 1%float |} ].

Definition zeroBase : list MetricValue :=
  [ {| date := "2024-01-01"; value := 0%float |};
    {| date := "2024-01-11"; value := 150%float |} ].

(** The sample [addValueEntry] appends. *)
Definition newEntry (rt : Runtime) (day : string) (st : AppState) : MetricValue :=
  {| date := day; value := parseFloat rt (newValue st) |}.

(** What [addValueEntry] makes of a selected metric when the clock reads
    [day] for the sample and then [day'] for [lastUpdated]. *)
Definition recorded (rt : Runtime) (day day' : string) (st : AppState)
    (metric : Metric) : Metric :=
  {| id := id metric;
     name := name metric;
     values :=
       Array_sort (byDate rt) (values metric ++ [newEntry rt day st]);
     baseValue := baseValue metric;
     lastUpdated := Some day' |}.

(** The number of clock reads a call has made before it comes to the metric
    at position [i]: two for every selected metric before it. *)
Definition readsBefore (st : AppState) (i : nat) : nat :=
  2 * List.length (filter (isSelected (selectedMetric st))
                          (firstn i (metrics st))).

(** A call made well inside the UTC day [day]. *)
Definition always (day : string) : Clock := fun _ => day.

(** A call during which the UTC day changes from 2024-01-05 to 2024-01-06
    after the first read of the clock. *)
Definition acrossMidnight : Clock :=
  fun n => match n with
           | O => "2024-01-05"
           | S _ => "2024-01-06"
           end.

(** Every read of the clock gives a day [Date] can read. *)
Definition validClock (rt : Runtime) (clock : Clock) : Prop :=
  forall n, Date_getTime rt (clock n) <> None.

(** The state with the typed value cleared ([setNewValue("")]). *)
Definition cleared (st : AppState) : AppState :=
  {| metrics := metrics st;
     newMetricName := newMetricName st;
     newBaseValue := newBaseValue st;
     selectedMetric := selectedMetric st;
     newValue := "" |}.

(** The guard of [addValueEntry] lets the call through. *)
Definition accepted (st : AppState) : Prop :=
  falsy (selectedMetric st) = false /\ newValue st <> "".

(** The date of a sample is one [Date] can read. *)
Definition validDate (rt : Runtime) (v : MetricValue) : Prop :=
  Date_getTime rt (date v) <> None.

(** [a] is dated no later than [b] (both dates being valid). *)
Definition notLater (rt : Runtime) (a b : MetricValue) : bool :=
  match Date_getTime rt (date a), Date_getTime rt (date b) with
  | Some ta, Some tb => ta <=? tb
  | _, _ => false
  end.

Definition sortedByDate (rt : Runtime) (l : list MetricValue) : Prop :=
  StronglySorted (fun a b => notLater rt a b = true) l.

(** The samples of [l] dated [d], in the order they have in [l]. *)
Definition onDate (d : string) (l : list MetricValue) : list MetricValue :=
  filter (fun v => (date v =? d)%string) l.

(** [lastUpdated] is absent exactly when the metric has no sample. *)
Definition lastUpdatedConsistent (m : Metric) : Prop :=
  lastUpdated m = None <-> values m = [].

(** A store whose metric shows its samples out of order, with two of them on
    the same day, and a value typed for it. *)
Definition unsortedState : AppState := {|
  metrics :=
    [ {| id := 1; name := "Followers";
         values := [ {| date := "2024-01-07"; value := 1%float |};
                     {| date := "2024-01-05"; value := 2%float |};
                     {| date := "2024-01-03"; value := 3%float |} ];
         baseValue := 100%float;
         lastUpdated := Some "2024-01-03" |};
      {| id := 2; name := "Revenue"; values := []; baseValue := 1000%float;
         lastUpdated := None |} ];
  newMetricName := "";
  newBaseValue := 100%float;
  selectedMetric := Some 1;
  newValue := "42"
|}.

(** The built-in store with a selection and a typed value. *)
Definition selecting (sel : Z) (typed : string) : AppState := {|
  metrics := metrics initialState;
  newMetricName := "";
  newBaseValue := 100%float;
  selectedMetric := Some sel;
  newValue := typed
|}.

(** A store that holds a metric with id 0, selected. *)
Definition zeroIdState : AppState := {|
  metrics :=
    [ {| id := 0; name := "Zero"; values := []; baseValue := 1%float;
         lastUpdated := None |} ];
  newMetricName := "";
  newBaseValue := 100%float;
  selectedMetric := Some 0;
  newValue := "42"
|}.

(** The built-in store with a name typed for a new metric. *)
Definition naming (typed : string) : AppState := {|
  metrics := metrics initialState;
  newMetricName := typed;
  newBaseValue := 7%float;
  selectedMetric := None;
  newValue := ""
|}.

(** No two metrics of the store have the same id. *)
Definition uniqueIds (st : AppState) : Prop := NoDup (map id (metrics st)).

(** What [addMetric] gives the metric it creates as id. *)
Definition nextId (st : AppState) : Z :=
  roundInteger (Math_max0 (map id (metrics st)) + 1).

(** The ids of the store are below 2^53, where adding 1 is exact. *)
Definition smallIds (st : AppState) : Prop :=
  Math_max0 (map id (metrics st)) < 2 ^ 53.

(** A store, as it can be read from the browser's storage, with a metric
    whose id is 2^53. *)
Definition hugeIdState : AppState := {|
  metrics :=
    [ {| id := 9007199254740992; name := "Followers"; values := [];
         baseValue := 100%float; lastUpdated := None |} ];
  newMetricName := "Leads";
  newBaseValue := 7%float;
  selectedMetric := None;
  newValue := ""
|}.

(** Every recording of the session happens on a day [Date] can read. *)
Definition validDays (rt : Runtime) (actions : list Action) : Prop :=
  Forall (fun a => match a with
                   | AddValueEntry clock => validClock rt clock
                   | _ => True
                   end) actions.

(** A store whose second metric holds two samples in order. *)
Definition chronologicalState : AppState := {|
  metrics :=
    [ {| id := 1; name := "Followers"; values := []; baseValue := 100%float;
         lastUpdated := None |};
      {| id := 2; name := "Revenue";
         values := [ {| date := "2024-01-03"; value := 1000%float |};
                     {| date := "2024-01-05"; value := 1500%float |} ];
         baseValue := 1000%float;
         lastUpdated := Some "2024-01-05" |} ];
  newMetricName := "";
  newBaseValue := 100%float;
  selectedMetric := Some 2;
  newValue := "2100"
|}.

(** Samples between which others lie. *)
Definition withMiddle : list MetricValue :=
  {| date := "2024-01-01"; value := 100%float |}
  :: [ {| date := "2024-01-09"; value := 5%float |};
       {| date := "2024-01-20"; value := 90000%float |} ]
  ++ [ {| date := "2024-02-01"; value := 200%float |} ].

(** A sample whose value is not a number (as [parseFloat] gives for a text
    that is no number). *)
Definition nanSample : list MetricValue :=
  [ {| date := "2024-01-01"; value := nan |};
    {| date := "2024-02-01"; value := 200%float |} ].

(** A first sample whose date cannot be read. *)
Definition undated : list MetricValue :=
  [ {| date := "some day"; value := 100%float |};
    {| date := "2024-02-01"; value := 200%float |} ].

(** A first value of minus zero. *)
Definition minusZeroBase : list MetricValue :=
  [ {| date := "2024-01-01"; value := (-0)%float |};
    {| date := "2024-01-11"; value := 150%float |} ].

(** The samples of every metric are in the order of their dates, which
    [Date] can all read. *)
Definition samplesInOrder (rt : Runtime) (st : AppState) : Prop :=
  Forall (fun m => sortedByDate rt (values m)
                   /\ Forall (validDate rt) (values m))
         (metrics st).

(** A session in which two values are recorded, the second for an earlier
    day than the first. *)
Definition backdatedSession : list Action :=
  [ SetSelectedMetric (Some 2); SetNewValue "1200";
    AddValueEntry (always "2024-03-09");
    SetNewMetricName "Leads"; AddMetric;
    SetNewValue "1100"; AddValueEntry (always "2024-03-02");
    DeleteMetric 1 ].

(** * Properties *)

(** ** Order of binary64 numbers *)

Section FloatOrder.

Local Open Scope float_scope.

Lemma SFcompare_finite_pos m1 e1 m2 e2 :
  SFcompare (S754_finite false m1 e1) (S754_finite false m2 e2) =
  Some (match (e1 ?= e2)%Z with
        | Eq => (m1 ?= m2)%positive
        | Lt => Lt
        | Gt => Gt
        end).
Proof. reflexivity. Qed.

Lemma SFcompare_finite_neg m1 e1 m2 e2 :
  SFcompare (S754_finite true m1 e1) (S754_finite true m2 e2) =
  Some (match (e1 ?= e2)%Z with
        | Eq => CompOpp (m1 ?= m2)%positive
        | Lt => Gt
        | Gt => Lt
        end).
Proof. reflexivity. Qed.

Ltac order_cases :=
  repeat match goal with
    | H : context [(?a ?= ?b)%Z] |- _ => destruct (Z.compare_spec a b); subst
    | |- context [(?a ?= ?b)%Z] => destruct (Z.compare_spec a b); subst
    | H : context [(?a ?= ?b)%positive] |- _ =>
        destruct (Pos.compare_spec a b); subst
    | |- context [(?a ?= ?b)%positive] =>
        destruct (Pos.compare_spec a b); subst
    end;
  simpl in *; try reflexivity; try discriminate; try lia.

Ltac by_shape :=
  rewrite ?SFcompare_finite_pos, ?SFcompare_finite_neg;
  simpl; try reflexivity; try discriminate; intros; order_cases.

Lemma SFleb_trans a b c :
  SFleb a b = true -> SFleb b c = true -> SFleb a c = true.
Proof.
  unfold SFleb.
  destruct a as [sa|sa| |sa ma ea], b as [sb|sb| |sb mb eb],
           c as [sc|sc| |sc mc ec];
    try destruct sa; try destruct sb; try destruct sc; by_shape.
Qed.

Lemma SFleb_not_ltb a b : SFleb a b = true -> SFltb b a = false.
Proof.
  unfold SFleb, SFltb.
  destruct a as [sa|sa| |sa ma ea], b as [sb|sb| |sb mb eb];
    try destruct sa; try destruct sb; by_shape.
Qed.

Lemma leb_trans x y z :
  (x <=? y) = true -> (y <=? z) = true -> (x <=? z) = true.
Proof. rewrite !FloatAxioms.leb_spec. apply SFleb_trans. Qed.

Lemma leb_not_ltb x y : (x <=? y) = true -> (y <? x) = false.
Proof.
  rewrite FloatAxioms.leb_spec, FloatAxioms.ltb_spec. apply SFleb_not_ltb.
Qed.

Lemma eqb_not_ltb x y : (x =? y) = true -> (x <? y) = false.
Proof.
  rewrite FloatAxioms.eqb_spec, FloatAxioms.ltb_spec.
  unfold SFeqb, SFltb.
  destruct (SFcompare (Prim2SF x) (Prim2SF y)) as [[ | | ]|];
    intros; try reflexivity; discriminate.
Qed.

Lemma one_leb_nonzero d : (1 <=? d) = true -> (d =? 0) = false.
Proof.
  rewrite FloatAxioms.leb_spec, FloatAxioms.eqb_spec.
  change (Prim2SF 0) with (S754_zero false).
  destruct (Prim2SF d) as [s|s| |s m e]; try destruct s; simpl;
    try reflexivity; discriminate.
Qed.

Lemma log2Step_faithful : log2Faithful Ref.runtime.
Proof.
  split; [reflexivity|].
  intros x y Hx Hxy. simpl. unfold Ref.log2Step.
  rewrite Hx, (leb_trans _ _ _ Hx Hxy). reflexivity.
Qed.

End FloatOrder.

(** ** Rounding in [toFixed] *)

(** [nearest m e f] is [m * 2^e * 10^f] rounded to the nearest integer,
    upwards from the middle: exact for [0 <= e], and otherwise
    [n - 1/2 <= m * 10^f / 2^(-e) < n + 1/2]. *)
Lemma nearest_rounds m e f :
  let n := nearest m e f in
  let s := Zpos m * 10 ^ Z.of_nat f in
  if 0 <=? e then n = s * 2 ^ e
  else 2 ^ (- e) * (2 * n - 1) <= 2 * s < 2 ^ (- e) * (2 * n + 1).
Proof.
  unfold nearest. cbv zeta.
  destruct (Z.leb_spec 0 e) as [_|Hneg]; [reflexivity|].
  set (s := Zpos m * 10 ^ Z.of_nat f).
  assert (Hd : 0 < 2 ^ (- e)) by (apply Z.pow_pos_nonneg; lia).
  set (d := 2 ^ (- e)) in *.
  pose proof (Z.div_mod (2 * s + d) (2 * d) ltac:(lia)) as Hdiv.
  pose proof (Z.mod_pos_bound (2 * s + d) (2 * d) ltac:(lia)) as Hmod.
  set (n := (2 * s + d) / (2 * d)) in *.
  nia.
Qed.

(** A finite number below 1e21 is printed as its rounding, with its sign. *)
Lemma toFixed_finite toString x sign m e f :
  Prim2SF x = S754_finite sign m e ->
  atLeast1e21 m e = false ->
  toFixed toString x f =
  ((if sign then "-" else "") ++ pointed (nearest m e f) f)%string.
Proof.
  intros Hx Hsmall. unfold toFixed. now rewrite Hx, Hsmall.
Qed.

(** ** The estimator *)

Section EstimatorFacts.

Variable rt : Runtime.

Lemma calculateDoublingRate_short values :
  (List.length values < 2)%nat ->
  calculateDoublingRate rt values = Status "Need more data".
Proof.
  intros Hlen. unfold calculateDoublingRate.
  destruct (Nat.ltb_spec (List.length values) 2) as [_|Hge];
    [reflexivity | lia].
Qed.

(** With two samples or more the result is decided by the guard on the
    growth alone. *)
Lemma calculateDoublingRate_guard values firstEntry lastEntry :
  (2 <= List.length values)%nat ->
  nth_error values 0 = Some firstEntry ->
  nth_error values (List.length values - 1) = Some lastEntry ->
  calculateDoublingRate rt values =
  if (value lastEntry / value firstEntry <? 2)%float
  then Status "Not doubled yet"
  else Rate (rateOf rt firstEntry lastEntry).
Proof.
  intros Hlen Hfirst Hlast. unfold calculateDoublingRate.
  destruct (Nat.ltb_spec (List.length values) 2) as [Hlt|_]; [lia|].
  rewrite Hfirst, Hlast. reflexivity.
Qed.

End EstimatorFacts.

(** X24.  For a sample sequence of length at least 2 whose first value is
    positive and whose growth [last.value / first.value] is at least 2, the
    estimator returns the numeric result: [daysPerDoubling] is
    [elapsedDays / log2(totalGrowth)] printed with one decimal,
    [monthsPerDoubling] is that quotient divided by 30 printed with one
    decimal, and the projected date is what [toLocaleDateString] prints for
    the instant [daysPerDoubling] days after the UTC midnight of the last
    sample's date.  When [Math.log2] is exact at 2 and monotone from 2
    upwards, the divisor [log2(totalGrowth)] is at least 1, hence not
    zero. *)
Theorem calculateDoublingRate_doubled :
  forall (rt : Runtime) (values : list MetricValue)
         (firstEntry lastEntry : MetricValue),
    (2 <= List.length values)%nat ->
    nth_error values 0 = Some firstEntry ->
    nth_error values (List.length values - 1) = Some lastEntry ->
    (0 <? value firstEntry)%float = true ->
    (2 <=? value lastEntry / value firstEntry)%float = true ->
    log2Faithful rt ->
    let totalGrowth := (value lastEntry / value firstEntry)%float in
    let elapsedDays :=
      ((getTime rt (date lastEntry) - getTime rt (date firstEntry))
       / (1000 * 60 * 60 * 24))%float in
    let doublings := Math_log2 rt totalGrowth in
    let days := (elapsedDays / doublings)%float in
    calculateDoublingRate rt values =
      Rate {| daysPerDoubling := toFixed (Number_toString rt) days 1;
              monthsPerDoubling :=
                toFixed (Number_toString rt) (days / 30)%float 1;
              projectedNextDouble :=
                toLocaleDateString rt
                  (getTime rt (date lastEntry)
                   + days * 1000 * 60 * 60 * 24)%float |}
    /\ (1 <=? doublings)%float = true
    /\ (doublings =? 0)%float = false.
Proof.
  intros rt values firstEntry lastEntry Hlen Hfirst Hlast _ Hgrowth
         [Hexact Hmono] totalGrowth elapsedDays doublings days.
  assert (Hdiv : (1 <=? doublings)%float = true).
  { unfold doublings, totalGrowth. rewrite <- Hexact.
    apply Hmono; [reflexivity|exact Hgrowth]. }
  split; [|split].
  - rewrite (calculateDoublingRate_guard rt values _ _ Hlen Hfirst Hlast).
    rewrite (leb_not_ltb _ _ Hgrowth). reflexivity.
  - exact Hdiv.
  - now apply one_leb_nonzero.
Qed.

Lemma calculateDoublingRate_doubled_witness :
  calculateDoublingRate Ref.runtime doubled =
    Rate {| daysPerDoubling := "31.0";
            monthsPerDoubling := "1.0";
            projectedNextDouble := "3/3/2024" |}
  /\ (1 <=? Math_log2 Ref.runtime (200 / 100))%float = true
  /\ (Math_log2 Ref.runtime (200 / 100) =? 0)%float = false.
Proof.
  exact (calculateDoublingRate_doubled Ref.runtime doubled
           {| date := "2024-01-01"; value := 100%float |}
           {| date := "2024-02-01"; value := 200%float |}
           (le_n 2) eq_refl eq_refl eq_refl eq_refl log2Step_faithful).
Defined.

(** C1 (the code departs from it).  In a browser whose time zone is five
    hours behind UTC, for the samples 100 on 2024-01-01 and 200 on
    2024-02-01 the estimator finds 31.0 days per doubling, and the date 31
    days after 2024-02-01 is 2024-03-03; the projected date it returns is
    3/2/2024, the local day of the UTC midnight of 2024-03-03. *)
Theorem calculateDoublingRate_west_of_UTC :
  calculateDoublingRate (Ref.runtimeAt (-300)) doubled =
    Rate {| daysPerDoubling := "31.0";
            monthsPerDoubling := "1.0";
            projectedNextDouble := "3/2/2024" |}
  /\ Ref.civilFromDays (Ref.daysFromCivil 2024 2 1 + 31) = (2024, 3, 3)
  /\ calculateDoublingRate Ref.runtime doubled =
       Rate {| daysPerDoubling := "31.0";
               monthsPerDoubling := "1.0";
               projectedNextDouble := "3/3/2024" |}.
Proof. repeat split. Qed.

(** C2.  A sample sequence of length 0 or 1 gets the status
    "Need more data" (insufficient data); one of length at least 2 whose
    growth [last.value / first.value] is strictly less than 2 gets the
    status "Not doubled yet"; when the growth is exactly 2 the result is a
    numeric [DoublingRate], not a status. *)
Theorem calculateDoublingRate_statuses :
  forall (rt : Runtime) (values : list MetricValue),
    ((List.length values < 2)%nat ->
     calculateDoublingRate rt values = Status "Need more data")
    /\
    (forall firstEntry lastEntry : MetricValue,
        (2 <= List.length values)%nat ->
        nth_error values 0 = Some firstEntry ->
        nth_error values (List.length values - 1) = Some lastEntry ->
        ((value lastEntry / value firstEntry <? 2)%float = true ->
         calculateDoublingRate rt values = Status "Not doubled yet")
        /\
        ((value lastEntry / value firstEntry =? 2)%float = true ->
         calculateDoublingRate rt values = Rate (rateOf rt firstEntry lastEntry))).
Proof.
  intros rt values. split.
  - apply calculateDoublingRate_short.
  - intros firstEntry lastEntry Hlen Hfirst Hlast.
    rewrite (calculateDoublingRate_guard rt values _ _ Hlen Hfirst Hlast).
    split; intros Hg.
    + rewrite Hg. reflexivity.
    + rewrite (eqb_not_ltb _ _ Hg). reflexivity.
Qed.

Lemma calculateDoublingRate_statuses_witness :
  calculateDoublingRate Ref.runtime [] = Status "Need more data"
  /\ calculateDoublingRate Ref.runtime
       [ {| date := "2024-01-01"; value := 100%float |} ]
     = Status "Need more data"
  /\ calculateDoublingRate Ref.runtime notDoubled = Status "Not doubled yet"
  /\ calculateDoublingRate Ref.runtime doubled =
       Rate {| daysPerDoubling := "31.0";
               monthsPerDoubling := "1.0";
               projectedNextDouble := "3/3/2024" |}.
Proof.
  split; [|split; [|split]].
  - exact (proj1 (calculateDoublingRate_statuses Ref.runtime []) (le_S 1 1 (le_n 1))).
  - exact (proj1 (calculateDoublingRate_statuses Ref.runtime
                    [ {| date := "2024-01-01"; value := 100%float |} ])
                 (le_n 2)).
  - exact (proj1 (proj2 (calculateDoublingRate_statuses Ref.runtime notDoubled)
                    {| date := "2024-01-01"; value := 100%float |}
                    {| date := "2024-01-11"; value := 150%float |}
                    (le_n 2) eq_refl eq_refl) eq_refl).
  - exact (proj2 (proj2 (calculateDoublingRate_statuses Ref.runtime doubled)
                    {| date := "2024-01-01"; value := 100%float |}
                    {| date := "2024-02-01"; value := 200%float |}
                    (le_n 2) eq_refl eq_refl) eq_refl).
Defined.

(** C6 (as stated, refuted).  With a negative first value the estimator
    returns the ordinary status "Not doubled yet", and with a first value of
    zero it returns a numeric result: no error is signalled. *)
Lemma calculateDoublingRate_no_InvalidInput :
  ((2 <= List.length negativeBase)%nat
   /\ (exists firstEntry, nth_error negativeBase 0 = Some firstEntry
                          /\ (value firstEntry <? 0)%float = true)
   /\ calculateDoublingRate Ref.runtime negativeBase = Status "Not doubled yet")
  /\
  ((2 <= List.length zeroBase)%nat
   /\ (exists firstEntry, nth_error zeroBase 0 = Some firstEntry
                          /\ (value firstEntry =? 0)%float = true)
   /\ exists r, calculateDoublingRate Ref.runtime zeroBase = Rate r).
Proof.
  split; (split; [apply le_n|split]).
  - eexists; split; reflexivity.
  - reflexivity.
  - eexists; split; reflexivity.
  - eexists; reflexivity.
Qed.

(** C6 (amended).  For a sample sequence of length at least 2 whose first
    value is zero or negative the estimator signals no error: it returns the
    status "Not doubled yet" when [last.value / first.value < 2] and the
    numeric [DoublingRate] otherwise. *)
Theorem calculateDoublingRate_nonpositive_base :
  forall (rt : Runtime) (values : list MetricValue)
         (firstEntry lastEntry : MetricValue),
    (2 <= List.length values)%nat ->
    nth_error values 0 = Some firstEntry ->
    nth_error values (List.length values - 1) = Some lastEntry ->
    (value firstEntry <=? 0)%float = true ->
    calculateDoublingRate rt values =
    if (value lastEntry / value firstEntry <? 2)%float
    then Status "Not doubled yet"
    else Rate (rateOf rt firstEntry lastEntry).
Proof.
  intros rt values firstEntry lastEntry Hlen Hfirst Hlast _.
  now apply calculateDoublingRate_guard.
Qed.

Lemma calculateDoublingRate_nonpositive_base_witness :
  calculateDoublingRate Ref.runtime negativeBase = Status "Not doubled yet".
Proof.
  exact (calculateDoublingRate_nonpositive_base Ref.runtime negativeBase
           {| date := "2024-01-01"; value := (-1)%float |}
           {| date := "2024-01-11"; value := 1%float |}
           (le_n 2) eq_refl eq_refl eq_refl).
Defined.

(** ** The sort *)

Section ArraySortFacts.

Context {A : Type}.
Variable comparefn : A -> A -> option Z.

Lemma insert_Permutation x l : Permutation (x :: l) (insert comparefn x l).
Proof.
  induction l as [|y l IH]; simpl.
  - apply Permutation_refl.
  - destruct (0 <? SortCompare comparefn x y).
    + eapply perm_trans; [apply perm_swap|]. now apply perm_skip.
    + apply Permutation_refl.
Qed.

Lemma Array_sort_Permutation l : Permutation l (Array_sort comparefn l).
Proof.
  induction l as [|x l IH]; simpl.
  - apply perm_nil.
  - eapply perm_trans; [apply perm_skip, IH|]. apply insert_Permutation.
Qed.

(** Stability: a class of elements that an element of the class never
    jumps over keeps its order. *)
Variable inClass : A -> bool.
Hypothesis jumps_outside :
  forall x y, inClass x = true -> 0 < SortCompare comparefn x y ->
              inClass y = false.

Lemma insert_filter x l :
  filter inClass (insert comparefn x l) = filter inClass (x :: l).
Proof.
  induction l as [|y l IH]; [reflexivity|].
  simpl insert. destruct (0 <? SortCompare comparefn x y) eqn:Hjump.
  - apply Z.ltb_lt in Hjump. simpl in *. rewrite IH.
    destruct (inClass x) eqn:Hx; [|reflexivity].
    now rewrite (jumps_outside x y Hx Hjump).
  - reflexivity.
Qed.

Lemma Array_sort_filter l :
  filter inClass (Array_sort comparefn l) = filter inClass l.
Proof.
  induction l as [|x l IH]; [reflexivity|].
  simpl Array_sort. rewrite insert_filter. simpl. now rewrite IH.
Qed.

End ArraySortFacts.

Section ByDate.

Variable rt : Runtime.

Lemma SortCompare_byDate a b ta tb :
  Date_getTime rt (date a) = Some ta ->
  Date_getTime rt (date b) = Some tb ->
  SortCompare (byDate rt) a b = ta - tb.
Proof.
  intros Ha Hb. unfold SortCompare, byDate. now rewrite Ha, Hb.
Qed.

Lemma notLater_trans a b c :
  notLater rt a b = true -> notLater rt b c = true -> notLater rt a c = true.
Proof.
  unfold notLater.
  destruct (Date_getTime rt (date a)), (Date_getTime rt (date b)),
           (Date_getTime rt (date c)); try discriminate.
  rewrite !Z.leb_le. lia.
Qed.

Lemma insert_sortedByDate x l :
  validDate rt x -> Forall (validDate rt) l ->
  sortedByDate rt l -> sortedByDate rt (insert (byDate rt) x l).
Proof.
  unfold sortedByDate. intros Hx Hl Hs.
  induction l as [|y l IH]; simpl.
  - constructor; constructor.
  - inversion Hl as [|? ? Hy Hl']; subst.
    inversion Hs as [|? ? Hs' Hy_le]; subst.
    unfold validDate in Hx, Hy.
    destruct (Date_getTime rt (date x)) as [tx|] eqn:Ex; [|congruence].
    destruct (Date_getTime rt (date y)) as [ty|] eqn:Ey; [|congruence].
    rewrite (SortCompare_byDate x y tx ty Ex Ey).
    destruct (Z.ltb_spec 0 (tx - ty)) as [Hgt|Hle].
    + constructor; [now apply IH|].
      eapply Permutation_Forall; [apply insert_Permutation|].
      constructor; [|assumption].
      unfold notLater. rewrite Ey, Ex. apply Z.leb_le. lia.
    + assert (Hxy : notLater rt x y = true).
      { unfold notLater. rewrite Ex, Ey. apply Z.leb_le. lia. }
      constructor; [assumption|].
      constructor; [assumption|].
      eapply Forall_impl; [|exact Hy_le].
      intros z Hz. now apply notLater_trans with y.
Qed.

Lemma Array_sort_sortedByDate l :
  Forall (validDate rt) l -> sortedByDate rt (Array_sort (byDate rt) l).
Proof.
  induction l as [|x l IH]; intros Hl; simpl.
  - constructor.
  - inversion Hl as [|? ? Hx Hl']; subst.
    apply insert_sortedByDate; [assumption| |now apply IH].
    eapply Permutation_Forall; [apply Array_sort_Permutation|assumption].
Qed.

(** A sample only jumps over samples of another day. *)
Lemma byDate_jumps_other_day d x y :
  (date x =? d)%string = true -> 0 < SortCompare (byDate rt) x y ->
  (date y =? d)%string = false.
Proof.
  intros Hx Hjump. apply String.eqb_eq in Hx. subst d.
  destruct (String.eqb_spec (date y) (date x)) as [Heq|]; [|reflexivity].
  unfold SortCompare, byDate in Hjump. rewrite Heq in Hjump.
  destruct (Date_getTime rt (date x)); lia.
Qed.

Lemma Array_sort_onDate d l :
  onDate d (Array_sort (byDate rt) l) = onDate d l.
Proof.
  unfold onDate. apply Array_sort_filter. apply byDate_jumps_other_day.
Qed.

End ByDate.

(** ** The handlers *)

Lemma trimStart_empty s : trimStart s = "" <-> allWhiteSpace s = true.
Proof.
  induction s as [|c s IH]; simpl.
  - split; reflexivity.
  - destruct (isWhiteSpace c); simpl; [exact IH|].
    split; discriminate.
Qed.

Lemma trimStart_head s c t : trimStart s = String c t -> isWhiteSpace c = false.
Proof.
  induction s as [|c' s IH]; simpl; [discriminate|].
  destruct (isWhiteSpace c') eqn:Hc'; [exact IH|].
  intros Heq. injection Heq as -> _. exact Hc'.
Qed.

Lemma trimEnd_head c t : isWhiteSpace c = false -> trimEnd (String c t) <> "".
Proof.
  intros Hc. simpl. rewrite Hc. destruct (trimEnd t); discriminate.
Qed.

Lemma trim_empty s : trim s = "" <-> allWhiteSpace s = true.
Proof.
  rewrite <- trimStart_empty. unfold trim.
  destruct (trimStart s) as [|c t] eqn:Hs.
  - split; reflexivity.
  - split; [|discriminate].
    intros Hend. now apply trimEnd_head in Hend; [|apply (trimStart_head s c t)].
Qed.

Lemma Math_max0_fold ids acc : acc <= fold_left Z.max ids acc.
Proof.
  revert acc. induction ids as [|x ids IH]; intros acc; simpl; [lia|].
  specialize (IH (Z.max acc x)). lia.
Qed.

Lemma Math_max0_fold_In ids acc x : In x ids -> x <= fold_left Z.max ids acc.
Proof.
  revert acc. induction ids as [|y ids IH]; intros acc; simpl; [tauto|].
  intros [->|Hin]; [|now apply IH].
  pose proof (Math_max0_fold ids (Z.max acc x)). lia.
Qed.

Lemma Math_max0_upper ids x : In x ids -> x <= Math_max0 ids.
Proof. apply Math_max0_fold_In. Qed.

(** Adding 1 is exact as long as the sum does not exceed 2^53. *)
Lemma roundInteger_small z : Z.abs z <= 2 ^ 53 -> roundInteger z = z.
Proof.
  intros Hz. unfold roundInteger.
  destruct (Z.leb_spec (Z.abs z) (2 ^ 53)) as [_|Hbig]; [reflexivity|lia].
Qed.

Lemma Math_max0_nonneg ids : 0 <= Math_max0 ids.
Proof. apply Math_max0_fold. Qed.

Lemma Math_max0_succ ids :
  Math_max0 ids < 2 ^ 53 -> roundInteger (Math_max0 ids + 1) = Math_max0 ids + 1.
Proof.
  intros Hsmall. pose proof (Math_max0_nonneg ids).
  apply roundInteger_small. lia.
Qed.

Lemma addMetric_blank st :
  allWhiteSpace (newMetricName st) = true -> addMetric st = st.
Proof.
  intros Hblank. apply trim_empty in Hblank.
  unfold addMetric. now rewrite Hblank.
Qed.

Lemma addMetric_named st :
  allWhiteSpace (newMetricName st) = false ->
  metrics (addMetric st) =
  metrics st ++
  [ {| id := roundInteger (Math_max0 (map id (metrics st)) + 1);
       name := newMetricName st;
       values := [];
       baseValue := newBaseValue st;
       lastUpdated := None |} ].
Proof.
  intros Hname. unfold addMetric.
  destruct (String.eqb_spec (trim (newMetricName st)) "") as [Hblank|_].
  - apply trim_empty in Hblank. congruence.
  - reflexivity.
Qed.

Section HandlerFacts.

Variable rt : Runtime.
Variable clock : Clock.

Lemma addValueEntry_falsy st :
  falsy (selectedMetric st) = true -> addValueEntry rt clock st = st.
Proof. intros Hsel. unfold addValueEntry. now rewrite Hsel. Qed.

Lemma addValueEntry_nothing_typed st :
  newValue st = "" -> addValueEntry rt clock st = st.
Proof.
  intros Hval. unfold addValueEntry. rewrite Hval, orb_true_r. reflexivity.
Qed.

Lemma addValueEntry_accepted st :
  accepted st ->
  addValueEntry rt clock st =
  {| metrics :=
       updatedMetrics rt clock (selectedMetric st) (newValue st) 0 (metrics st);
     newMetricName := newMetricName st;
     newBaseValue := newBaseValue st;
     selectedMetric := selectedMetric st;
     newValue := "" |}.
Proof.
  intros [Hsel Hval]. unfold addValueEntry. rewrite Hsel.
  destruct (String.eqb_spec (newValue st) "") as [|_]; [contradiction|].
  reflexivity.
Qed.

Lemma accepted_dec st : accepted st \/ addValueEntry rt clock st = st.
Proof.
  unfold accepted.
  destruct (falsy (selectedMetric st)) eqn:Hsel.
  - right. now apply addValueEntry_falsy.
  - destruct (String.eqb_spec (newValue st) "") as [Hval|Hval].
    + right. now apply addValueEntry_nothing_typed.
    + left. now split.
Qed.

(** The metric at a position of the visited list, in terms of the one
    before: a selected metric is recorded with the two reads that follow the
    reads of the selected metrics before it. *)
Lemma updatedMetrics_nth st reads ms i metric :
  nth_error ms i = Some metric ->
  nth_error (updatedMetrics rt clock (selectedMetric st) (newValue st) reads ms) i =
  Some (if isSelected (selectedMetric st) metric
        then
          let k := (reads
                    + 2 * List.length (filter (isSelected (selectedMetric st))
                                              (firstn i ms)))%nat in
          recorded rt (clock k) (clock (S k)) st metric
        else metric).
Proof.
  revert reads i. induction ms as [|m ms IH]; intros reads i Hnth.
  - destruct i; discriminate.
  - destruct i as [|i]; simpl in Hnth.
    + injection Hnth as ->. simpl.
      destruct (isSelected (selectedMetric st) metric); [|reflexivity].
      simpl. rewrite Nat.add_0_r. reflexivity.
    + simpl updatedMetrics. simpl firstn. simpl filter.
      destruct (isSelected (selectedMetric st) m); simpl nth_error;
        rewrite (IH _ i Hnth);
        destruct (isSelected (selectedMetric st) metric); try reflexivity.
      cbn zeta. simpl List.length. do 3 f_equal; lia.
Qed.

(** The metric at a position after the call, in terms of the one before. *)
Lemma addValueEntry_nth st i metric :
  nth_error (metrics st) i = Some metric ->
  nth_error (metrics (addValueEntry rt clock st)) i =
  Some (if negb (falsy (selectedMetric st))
           && negb (newValue st =? "")%string
           && isSelected (selectedMetric st) metric
        then recorded rt (clock (readsBefore st i))
                      (clock (S (readsBefore st i))) st metric
        else metric).
Proof.
  intros Hnth. unfold addValueEntry.
  destruct (falsy (selectedMetric st)); simpl; [exact Hnth|].
  destruct (newValue st =? "")%string; simpl; [exact Hnth|].
  now rewrite (updatedMetrics_nth st 0 (metrics st) i metric Hnth).
Qed.

Lemma isSelected_iff st metric :
  isSelected (selectedMetric st) metric = true <->
  selectedMetric st = Some (id metric).
Proof.
  unfold isSelected. destruct (selectedMetric st) as [n|].
  - rewrite Z.eqb_eq. split; [intros ->; reflexivity|congruence].
  - split; discriminate.
Qed.

Lemma isSelected_not st metric :
  selectedMetric st <> Some (id metric) ->
  isSelected (selectedMetric st) metric = false.
Proof.
  intros Hsel. destruct (isSelected (selectedMetric st) metric) eqn:E;
    [|reflexivity].
  now apply isSelected_iff in E.
Qed.

Lemma updatedMetrics_ids sel typed reads ms :
  map id (updatedMetrics rt clock sel typed reads ms) = map id ms.
Proof.
  revert reads. induction ms as [|m ms IH]; intros reads; [reflexivity|].
  simpl. destruct (isSelected sel m); simpl; now rewrite IH.
Qed.

Lemma addValueEntry_ids st :
  map id (metrics (addValueEntry rt clock st)) = map id (metrics st).
Proof.
  destruct (accepted_dec st) as [Hacc|Hsame]; [|now rewrite Hsame].
  rewrite (addValueEntry_accepted st Hacc). simpl.
  apply updatedMetrics_ids.
Qed.

(** A visit that meets no selected metric changes nothing. *)
Lemma updatedMetrics_unselected sel typed reads ms :
  (forall m, In m ms -> isSelected sel m = false) ->
  updatedMetrics rt clock sel typed reads ms = ms.
Proof.
  revert reads. induction ms as [|m ms IH]; intros reads Hnone; [reflexivity|].
  simpl. rewrite (Hnone m (or_introl eq_refl)). f_equal.
  apply IH. intros m' Hm'. apply Hnone. now right.
Qed.

(** Every metric after the call is one from before, kept or recorded. *)
Lemma updatedMetrics_In sel typed reads ms m' :
  In m' (updatedMetrics rt clock sel typed reads ms) ->
  exists m, In m ms
            /\ (m' = m
                \/ exists k,
                     m' = {| id := id m; name := name m;
                             values :=
                               Array_sort (byDate rt)
                                 (values m ++
                                  [ {| date := clock k;
                                       value := parseFloat rt typed |} ]);
                             baseValue := baseValue m;
                             lastUpdated := Some (clock (S k)) |}).
Proof.
  revert reads. induction ms as [|m ms IH]; intros reads Hin; [destruct Hin|].
  simpl in Hin. destruct (isSelected sel m); destruct Hin as [<-|Hin].
  - exists m. split; [now left|]. right. now exists reads.
  - destruct (IH _ Hin) as (m0 & Hm0 & Hcase). exists m0. split; [now right|exact Hcase].
  - exists m. split; [now left|now left].
  - destruct (IH _ Hin) as (m0 & Hm0 & Hcase). exists m0. split; [now right|exact Hcase].
Qed.

End HandlerFacts.

(** C3.  After [addValueEntry] has recorded a sample for a metric, the
    stored samples of that metric are its former samples and the new one,
    sorted ascending by date whatever the order they were held in before,
    and the samples of one day keep the order in which they were inserted
    (the new one comes last among those of its day). *)
Theorem addValueEntry_sorted :
  forall (rt : Runtime) (clock : Clock) (st : AppState)
         (i : nat) (metric : Metric),
    accepted st ->
    nth_error (metrics st) i = Some metric ->
    selectedMetric st = Some (id metric) ->
    Forall (validDate rt) (values metric) ->
    Date_getTime rt (clock (readsBefore st i)) <> None ->
    exists metric',
      nth_error (metrics (addValueEntry rt clock st)) i = Some metric'
      /\ Permutation
           (values metric ++ [newEntry rt (clock (readsBefore st i)) st])
           (values metric')
      /\ sortedByDate rt (values metric')
      /\ forall d,
           onDate d (values metric') =
           onDate d (values metric
                     ++ [newEntry rt (clock (readsBefore st i)) st]).
Proof.
  intros rt clock st i metric [Hsel Hval] Hnth Htarget Hdates Htoday.
  exists (recorded rt (clock (readsBefore st i))
                   (clock (S (readsBefore st i))) st metric).
  split; [|split; [|split]].
  - rewrite (addValueEntry_nth rt clock st i metric Hnth).
    rewrite Hsel. apply String.eqb_neq in Hval. rewrite Hval.
    apply isSelected_iff in Htarget. rewrite Htarget. reflexivity.
  - apply Array_sort_Permutation.
  - apply Array_sort_sortedByDate. apply Forall_app. split; [assumption|].
    constructor; [exact Htoday|constructor].
  - intros d. apply Array_sort_onDate.
Qed.

Lemma addValueEntry_sorted_witness :
  exists metric',
    nth_error (metrics (addValueEntry Ref.runtime (always "2024-01-05")
                          unsortedState)) 0
    = Some metric'
    /\ Permutation
         ([ {| date := "2024-01-07"; value := 1%float |};
            {| date := "2024-01-05"; value := 2%float |};
            {| date := "2024-01-03"; value := 3%float |} ]
          ++ [newEntry Ref.runtime "2024-01-05" unsortedState])
         (values metric')
    /\ sortedByDate Ref.runtime (values metric')
    /\ forall d,
         onDate d (values metric') =
         onDate d
           ([ {| date := "2024-01-07"; value := 1%float |};
              {| date := "2024-01-05"; value := 2%float |};
              {| date := "2024-01-03"; value := 3%float |} ]
            ++ [newEntry Ref.runtime "2024-01-05" unsortedState]).
Proof.
  apply (addValueEntry_sorted Ref.runtime (always "2024-01-05") unsortedState 0
           {| id := 1; name := "Followers";
              values := [ {| date := "2024-01-07"; value := 1%float |};
                          {| date := "2024-01-05"; value := 2%float |};
                          {| date := "2024-01-03"; value := 3%float |} ];
              baseValue := 100%float;
              lastUpdated := Some "2024-01-03" |}).
  - split; [reflexivity|discriminate].
  - reflexivity.
  - reflexivity.
  - repeat constructor; discriminate.
  - discriminate.
Defined.

(** What the call of the witness stores. *)
Example addValueEntry_sorted_example :
  map values (metrics (addValueEntry Ref.runtime (always "2024-01-05")
                         unsortedState)) =
  [ [ {| date := "2024-01-03"; value := 3%float |};
      {| date := "2024-01-05"; value := 2%float |};
      {| date := "2024-01-05"; value := 42%float |};
      {| date := "2024-01-07"; value := 1%float |} ];
    [] ].
Proof. reflexivity. Qed.

(** C7 (the code departs from it).  The handler reads the clock once for
    the date of the sample and once more for [lastUpdated].  When the UTC
    day changes between the two reads, the metric gets a sample dated
    2024-01-05 and a [lastUpdated] of 2024-01-06, a day on which it has no
    sample. *)
Theorem addValueEntry_lastUpdated_midnight :
  accepted chronologicalState
  /\ nth_error (metrics (addValueEntry Ref.runtime acrossMidnight
                           chronologicalState)) 1
     = Some {| id := 2; name := "Revenue";
               values := [ {| date := "2024-01-03"; value := 1000%float |};
                           {| date := "2024-01-05"; value := 1500%float |};
                           {| date := "2024-01-05"; value := 2100%float |} ];
               baseValue := 1000%float;
               lastUpdated := Some "2024-01-06" |}.
Proof. split; [split; [reflexivity|discriminate]|reflexivity]. Qed.

(** X25.  After [addValueEntry] has recorded a sample for a metric, the
    [lastUpdated] of that metric is the day of the clock read that follows
    the one that dated the sample; it is the date of the sample just
    appended whenever the two reads give the same day.  The metric then has
    a sample and a [lastUpdated]. *)
Theorem addValueEntry_lastUpdated :
  forall (rt : Runtime) (clock : Clock) (st : AppState)
         (i : nat) (metric : Metric),
    accepted st ->
    nth_error (metrics st) i = Some metric ->
    selectedMetric st = Some (id metric) ->
    exists metric',
      nth_error (metrics (addValueEntry rt clock st)) i = Some metric'
      /\ In (newEntry rt (clock (readsBefore st i)) st) (values metric')
      /\ lastUpdated metric' = Some (clock (S (readsBefore st i)))
      /\ (clock (S (readsBefore st i)) = clock (readsBefore st i) ->
          lastUpdated metric'
          = Some (date (newEntry rt (clock (readsBefore st i)) st)))
      /\ lastUpdatedConsistent metric'.
Proof.
  intros rt clock st i metric [Hsel Hval] Hnth Htarget.
  exists (recorded rt (clock (readsBefore st i))
                   (clock (S (readsBefore st i))) st metric).
  assert (Hin : In (newEntry rt (clock (readsBefore st i)) st)
                   (values (recorded rt (clock (readsBefore st i))
                              (clock (S (readsBefore st i))) st metric))).
  { eapply Permutation_in; [apply Array_sort_Permutation|].
    apply in_or_app. right. now left. }
  split; [|split; [exact Hin|split; [reflexivity|split]]].
  - rewrite (addValueEntry_nth rt clock st i metric Hnth).
    rewrite Hsel. apply String.eqb_neq in Hval. rewrite Hval.
    apply isSelected_iff in Htarget. rewrite Htarget. reflexivity.
  - intros Hsame. simpl. now rewrite Hsame.
  - unfold lastUpdatedConsistent. split; [discriminate|].
    intros Hempty. rewrite Hempty in Hin. destruct Hin.
Qed.

Lemma addValueEntry_lastUpdated_witness :
  exists metric',
    nth_error (metrics (addValueEntry Ref.runtime (always "2024-01-05")
                          unsortedState)) 0
    = Some metric'
    /\ In (newEntry Ref.runtime "2024-01-05" unsortedState) (values metric')
    /\ lastUpdated metric' = Some "2024-01-05"
    /\ ("2024-01-05" = "2024-01-05" ->
        lastUpdated metric'
        = Some (date (newEntry Ref.runtime "2024-01-05" unsortedState)))
    /\ lastUpdatedConsistent metric'.
Proof.
  apply (addValueEntry_lastUpdated Ref.runtime (always "2024-01-05")
           unsortedState 0
           {| id := 1; name := "Followers";
              values := [ {| date := "2024-01-07"; value := 1%float |};
                          {| date := "2024-01-05"; value := 2%float |};
                          {| date := "2024-01-03"; value := 3%float |} ];
              baseValue := 100%float;
              lastUpdated := Some "2024-01-03" |}).
  - split; [reflexivity|discriminate].
  - reflexivity.
  - reflexivity.
Defined.

(** [lastUpdated] is absent exactly when there is no sample: so it is in the
    built-in store, and the other two mutators keep it so. *)
Lemma initialState_lastUpdated :
  Forall lastUpdatedConsistent (metrics initialState).
Proof. repeat constructor. Qed.

Lemma addMetric_lastUpdated st :
  Forall lastUpdatedConsistent (metrics st) ->
  Forall lastUpdatedConsistent (metrics (addMetric st)).
Proof.
  intros Hcons. unfold addMetric.
  destruct (trim (newMetricName st) =? "")%string; [assumption|].
  simpl. apply Forall_app. split; [assumption|].
  repeat constructor.
Qed.

Lemma deleteMetric_lastUpdated target st :
  Forall lastUpdatedConsistent (metrics st) ->
  Forall lastUpdatedConsistent (metrics (deleteMetric target st)).
Proof.
  intros Hcons. simpl. rewrite Forall_forall in *.
  intros m Hm. apply filter_In in Hm. now apply Hcons.
Qed.

(** C9.  In a store that holds a metric with id 0, [addValueEntry] with the
    id 0 selected changes nothing at all (the guard takes 0 for "no
    selection"); whatever is selected, a metric with id 0 comes out of the
    call as it went in, so it never receives a sample. *)
Theorem addValueEntry_id_zero :
  forall (rt : Runtime) (clock : Clock) (st : AppState)
         (i : nat) (metric : Metric),
    nth_error (metrics st) i = Some metric ->
    id metric = 0 ->
    (selectedMetric st = Some 0 -> addValueEntry rt clock st = st)
    /\ nth_error (metrics (addValueEntry rt clock st)) i = Some metric.
Proof.
  intros rt clock st i metric Hnth Hzero. split.
  - intros Hsel. apply addValueEntry_falsy. now rewrite Hsel.
  - rewrite (addValueEntry_nth rt clock st i metric Hnth).
    destruct (selectedMetric st) as [n|] eqn:Hsel; [|reflexivity].
    unfold falsy, isSelected. rewrite Hzero.
    destruct (Z.eqb_spec n 0) as [->|Hn]; [reflexivity|].
    destruct (Z.eqb_spec 0 n) as [<-|_]; [contradiction|].
    now rewrite andb_false_r.
Qed.

Lemma addValueEntry_id_zero_witness :
  (selectedMetric zeroIdState = Some 0 ->
   addValueEntry Ref.runtime (always "2024-01-05") zeroIdState = zeroIdState)
  /\ nth_error (metrics (addValueEntry Ref.runtime (always "2024-01-05")
                           zeroIdState)) 0
     = Some {| id := 0; name := "Zero"; values := []; baseValue := 1%float;
               lastUpdated := None |}.
Proof.
  apply (addValueEntry_id_zero Ref.runtime (always "2024-01-05") zeroIdState 0
           {| id := 0; name := "Zero"; values := []; baseValue := 1%float;
              lastUpdated := None |});
    reflexivity.
Defined.

(** C10.  [addValueEntry] leaves every metric other than the selected one
    as it is (id, name, base value, samples and [lastUpdated]) and at its
    position, and the ids of the store are the same, in the same order,
    after the call. *)
Theorem addValueEntry_frame :
  forall (rt : Runtime) (clock : Clock) (st : AppState),
    map id (metrics (addValueEntry rt clock st)) = map id (metrics st)
    /\ List.length (metrics (addValueEntry rt clock st))
       = List.length (metrics st)
    /\ forall (i : nat) (metric : Metric),
         nth_error (metrics st) i = Some metric ->
         selectedMetric st <> Some (id metric) ->
         nth_error (metrics (addValueEntry rt clock st)) i = Some metric.
Proof.
  intros rt clock st. split; [apply addValueEntry_ids|]. split.
  - rewrite <- (length_map id), addValueEntry_ids. apply length_map.
  - intros i metric Hnth Hother.
    rewrite (addValueEntry_nth rt clock st i metric Hnth).
    rewrite (isSelected_not st metric Hother).
    now rewrite andb_false_r.
Qed.

Lemma addValueEntry_frame_witness :
  nth_error (metrics (addValueEntry Ref.runtime (always "2024-01-05")
                        unsortedState)) 1
  = Some {| id := 2; name := "Revenue"; values := []; baseValue := 1000%float;
            lastUpdated := None |}.
Proof.
  apply (proj2 (proj2 (addValueEntry_frame Ref.runtime (always "2024-01-05")
                         unsortedState))).
  - reflexivity.
  - discriminate.
Defined.

(** C5 (as stated, refuted).  With the id 7 selected, which no metric of the
    built-in store has, [addValueEntry] completes: the metrics are the same
    and the typed value is cleared. *)
Lemma addValueEntry_no_NotFound :
  existsb (fun metric => id metric =? 7) (metrics (selecting 7 "42")) = false
  /\ addValueEntry Ref.runtime (always "2024-01-05") (selecting 7 "42")
     = selecting 7 "".
Proof. split; reflexivity. Qed.

(** C5 (amended).  When the selected id is the id of no metric of the
    store, [addValueEntry] signals no error: the metrics are unchanged, and
    the call either returns at its guard (nothing or 0 selected, or no value
    typed), the state being unchanged, or clears the typed value. *)
Theorem addValueEntry_unknown_id :
  forall (rt : Runtime) (clock : Clock) (st : AppState),
    (forall metric, In metric (metrics st) ->
                    selectedMetric st <> Some (id metric)) ->
    metrics (addValueEntry rt clock st) = metrics st
    /\ addValueEntry rt clock st =
       if falsy (selectedMetric st) || (newValue st =? "")%string
       then st else cleared st.
Proof.
  intros rt clock st Hunknown.
  assert (Hsame : updatedMetrics rt clock (selectedMetric st) (newValue st) 0
                    (metrics st) = metrics st).
  { apply updatedMetrics_unselected. intros m Hm.
    apply isSelected_not. now apply Hunknown. }
  unfold addValueEntry, cleared.
  destruct (falsy (selectedMetric st) || (newValue st =? "")%string);
    [split; reflexivity|].
  simpl. rewrite Hsame. split; reflexivity.
Qed.

Lemma addValueEntry_unknown_id_witness :
  metrics (addValueEntry Ref.runtime (always "2024-01-05") (selecting 7 "42"))
  = metrics (selecting 7 "42")
  /\ addValueEntry Ref.runtime (always "2024-01-05") (selecting 7 "42")
     = cleared (selecting 7 "42").
Proof.
  apply (addValueEntry_unknown_id Ref.runtime (always "2024-01-05")
           (selecting 7 "42")).
  intros metric [<-|[<-|[<-|[]]]]; discriminate.
Defined.

(** The rounding of [roundInteger] is that of the binary64 addition of 1,
    below, at and above 2^53. *)
Example roundInteger_binary64 :
  map (fun n => number_of_Z (roundInteger (n + 1)))
      [0; 3; 2 ^ 53 - 1; 2 ^ 53; 2 ^ 53 + 2; 2 ^ 53 + 4; 2 ^ 54; 2 ^ 60;
       2 ^ 1023]
  = map (fun n => (number_of_Z n + 1)%float)
        [0; 3; 2 ^ 53 - 1; 2 ^ 53; 2 ^ 53 + 2; 2 ^ 53 + 4; 2 ^ 54; 2 ^ 60;
         2 ^ 1023].
Proof. vm_compute. reflexivity. Qed.

(** C4 (as stated, refuted).  In a store that holds the id 2^53, the sum
    [Math.max(0, ...ids) + 1] is 2^53 again (the binary64 addition rounds
    it), so the metric created gets an id that is not greater than the one
    present: it is the same. *)
Lemma addMetric_id_not_fresh :
  (trim (newMetricName hugeIdState) =? "")%string = false
  /\ (number_of_Z 9007199254740992 + 1)%float = number_of_Z 9007199254740992
  /\ metrics (addMetric hugeIdState) =
     metrics hugeIdState
     ++ [ {| id := 9007199254740992; name := "Leads"; values := [];
             baseValue := 7%float; lastUpdated := None |} ].
Proof. split; [reflexivity|split; [vm_compute; reflexivity|reflexivity]]. Qed.

(** C4 (amended).  When [addMetric] creates a metric (the typed name is not
    blank) in a store whose ids are below 2^53, the metric is appended with
    the id [1 + Math.max(0, ...ids)], the maximum being taken over 0 and the
    ids of the store (so the id is 1 in an empty store), and this id is
    strictly greater than every id already in the store. *)
Theorem addMetric_next_id :
  forall st : AppState,
    trim (newMetricName st) <> "" ->
    smallIds st ->
    exists metric,
      metrics (addMetric st) = metrics st ++ [metric]
      /\ id metric = 1 + Math_max0 (map id (metrics st))
      /\ (metrics st = [] -> id metric = 1)
      /\ forall m, In m (metrics st) -> id m < id metric.
Proof.
  intros st Hname Hsmall.
  assert (Hnot : allWhiteSpace (newMetricName st) = false).
  { destruct (allWhiteSpace (newMetricName st)) eqn:E; [|reflexivity].
    now apply trim_empty in E. }
  eexists. split; [apply (addMetric_named st Hnot)|]. cbn [id].
  rewrite (Math_max0_succ _ Hsmall).
  split; [lia|]. split.
  - intros ->. reflexivity.
  - intros m Hm.
    pose proof (Math_max0_upper (map id (metrics st)) (id m) (in_map id _ _ Hm)).
    lia.
Qed.

Lemma addMetric_next_id_witness :
  exists metric,
    metrics (addMetric (naming "Leads")) = metrics (naming "Leads") ++ [metric]
    /\ id metric = 1 + Math_max0 (map id (metrics (naming "Leads")))
    /\ (metrics (naming "Leads") = [] -> id metric = 1)
    /\ forall m, In m (metrics (naming "Leads")) -> id m < id metric.
Proof.
  apply (addMetric_next_id (naming "Leads")).
  - discriminate.
  - reflexivity.
Defined.

Example addMetric_next_id_example :
  map id (metrics (addMetric (naming "Leads"))) = [1; 2; 3; 4].
Proof. reflexivity. Qed.

(** C8.  [addMetric] with an empty or whitespace-only name changes nothing;
    with any other name it appends one metric, which has no sample and no
    [lastUpdated]. *)
Theorem addMetric_blank_name :
  forall st : AppState,
    (allWhiteSpace (newMetricName st) = true -> addMetric st = st)
    /\ (allWhiteSpace (newMetricName st) = false ->
        exists metric,
          metrics (addMetric st) = metrics st ++ [metric]
          /\ name metric = newMetricName st
          /\ values metric = []
          /\ lastUpdated metric = None).
Proof.
  intros st. split.
  - apply addMetric_blank.
  - intros Hname. eexists. split; [apply (addMetric_named st Hname)|].
    repeat split.
Qed.

Lemma addMetric_blank_name_witness :
  addMetric (naming "") = naming ""
  /\ addMetric (naming "  ") = naming "  "
  /\ exists metric,
       metrics (addMetric (naming "Leads")) = metrics (naming "Leads") ++ [metric]
       /\ name metric = "Leads"
       /\ values metric = []
       /\ lastUpdated metric = None.
Proof.
  split; [|split].
  - apply (proj1 (addMetric_blank_name (naming ""))). reflexivity.
  - apply (proj1 (addMetric_blank_name (naming "  "))). reflexivity.
  - apply (proj2 (addMetric_blank_name (naming "Leads"))). reflexivity.
Defined.

(** * Further properties of the component *)

(** ** [deleteMetric] *)

Lemma filter_all_true {A : Type} (f : A -> bool) (l : list A) :
  (forall x, In x l -> f x = true) -> filter f l = l.
Proof.
  induction l as [|x l IH]; intros Hall; [reflexivity|].
  simpl. rewrite (Hall x (or_introl eq_refl)).
  f_equal. apply IH. intros y Hy. apply Hall. now right.
Qed.

Lemma deleteMetric_metrics target st :
  metrics (deleteMetric target st) =
  filter (fun metric => negb (id metric =? target)) (metrics st).
Proof. reflexivity. Qed.

Lemma deleteMetric_In target st m :
  In m (metrics (deleteMetric target st)) <->
  In m (metrics st) /\ id m <> target.
Proof.
  rewrite deleteMetric_metrics, filter_In, negb_true_iff, Z.eqb_neq.
  reflexivity.
Qed.

(** X1.  Deleting an id that no metric of the store has changes nothing, and
    raises no error. *)
Theorem deleteMetric_absent :
  forall (target : Z) (st : AppState),
    (forall m, In m (metrics st) -> id m <> target) ->
    deleteMetric target st = st.
Proof.
  intros target st Habsent. destruct st as [ms n b sel v].
  unfold deleteMetric. simpl in *. f_equal.
  apply filter_all_true. intros m Hm.
  apply negb_true_iff, Z.eqb_neq. now apply Habsent.
Qed.

Lemma deleteMetric_absent_witness :
  deleteMetric 7 initialState = initialState.
Proof.
  apply (deleteMetric_absent 7 initialState).
  intros m [<-|[<-|[<-|[]]]]; discriminate.
Defined.

(** X2.  In a store with unique ids, deleting the id of a metric removes
    that metric and nothing else: the metrics before it and after it stay,
    in their order, and no metric with the deleted id is left. *)
Theorem deleteMetric_removes_one :
  forall (st : AppState) (before after : list Metric) (metric : Metric),
    uniqueIds st ->
    metrics st = before ++ metric :: after ->
    metrics (deleteMetric (id metric) st) = before ++ after
    /\ forall m, In m (metrics (deleteMetric (id metric) st)) ->
                 id m <> id metric.
Proof.
  intros st before after metric Huniq Hsplit. split.
  - rewrite deleteMetric_metrics, Hsplit.
    unfold uniqueIds in Huniq. rewrite Hsplit, map_app in Huniq. simpl in Huniq.
    apply NoDup_remove_2 in Huniq.
    rewrite filter_app. simpl. rewrite Z.eqb_refl. simpl.
    rewrite !filter_all_true; [reflexivity| |];
      intros m Hm; apply negb_true_iff, Z.eqb_neq; intros Heq;
      apply Huniq, in_or_app; [right|left]; rewrite <- Heq; now apply in_map.
  - intros m Hm. now apply deleteMetric_In in Hm.
Qed.

Lemma deleteMetric_removes_one_witness :
  metrics (deleteMetric 2 initialState) =
  [ {| id := 1; name := "Followers"; values := []; baseValue := 100%float;
       lastUpdated := None |} ]
  ++ [ {| id := 3; name := "Customers"; values := []; baseValue := 10%float;
          lastUpdated := None |} ]
  /\ forall m, In m (metrics (deleteMetric 2 initialState)) -> id m <> 2.
Proof.
  apply (deleteMetric_removes_one initialState
           [ {| id := 1; name := "Followers"; values := [];
                baseValue := 100%float; lastUpdated := None |} ]
           [ {| id := 3; name := "Customers"; values := [];
                baseValue := 10%float; lastUpdated := None |} ]
           {| id := 2; name := "Revenue"; values := [];
              baseValue := 1000%float; lastUpdated := None |}).
  - unfold uniqueIds. simpl. repeat constructor; simpl; intuition discriminate.
  - reflexivity.
Defined.

(** X3.  Deleting twice is deleting once, and two deletions can be done in
    either order. *)
Theorem deleteMetric_idempotent_commutes :
  forall (a b : Z) (st : AppState),
    deleteMetric a (deleteMetric a st) = deleteMetric a st
    /\ deleteMetric a (deleteMetric b st) = deleteMetric b (deleteMetric a st).
Proof.
  intros a b st. split.
  - apply deleteMetric_absent. intros m Hm. now apply deleteMetric_In in Hm.
  - unfold deleteMetric. simpl. f_equal.
    induction (metrics st) as [|m l IH]; [reflexivity|]. simpl.
    destruct (id m =? a) eqn:Ha, (id m =? b) eqn:Hb; simpl;
      rewrite ?Ha, ?Hb; simpl; now rewrite IH.
Qed.

Lemma addMetric_then_delete st :
  allWhiteSpace (newMetricName st) = false ->
  smallIds st ->
  metrics (deleteMetric (nextId st) (addMetric st)) = metrics st.
Proof.
  intros Hnot Hsmall.
  rewrite deleteMetric_metrics, (addMetric_named st Hnot), filter_app.
  unfold nextId. cbn [filter id]. rewrite Z.eqb_refl. cbn [negb].
  rewrite app_nil_r.
  apply filter_all_true. intros m Hm. apply negb_true_iff, Z.eqb_neq.
  rewrite (Math_max0_succ _ Hsmall).
  pose proof (Math_max0_upper (map id (metrics st)) (id m) (in_map id _ _ Hm)).
  lia.
Qed.

Lemma not_blank s : trim s <> "" -> allWhiteSpace s = false.
Proof.
  intros Hs. destruct (allWhiteSpace s) eqn:E; [|reflexivity].
  now apply trim_empty in E.
Qed.

(** X4.  In a store whose ids are below 2^53, creating a metric and
    deleting it again gives back the metrics there were: the id of the new
    metric is the id of no other. *)
Theorem addMetric_deleteMetric :
  forall st : AppState,
    trim (newMetricName st) <> "" ->
    smallIds st ->
    metrics (deleteMetric (nextId st) (addMetric st)) = metrics st.
Proof.
  intros st Hname Hsmall.
  apply addMetric_then_delete; [now apply not_blank|exact Hsmall].
Qed.

Lemma addMetric_deleteMetric_witness :
  metrics (deleteMetric (nextId (naming "Leads")) (addMetric (naming "Leads")))
  = metrics (naming "Leads").
Proof.
  apply (addMetric_deleteMetric (naming "Leads")).
  - discriminate.
  - reflexivity.
Defined.

(** X5.  Ids are reused: in a store whose ids are below 2^53, after the
    metric created last is deleted, the next metric created gets the id the
    deleted one had. *)
Theorem addMetric_reuses_id :
  forall (rt : Runtime) (st : AppState) (typed : string),
    trim (newMetricName st) <> "" ->
    trim typed <> "" ->
    smallIds st ->
    exists metric,
      metrics (run rt st [AddMetric; DeleteMetric (nextId st);
                          SetNewMetricName typed; AddMetric])
      = metrics st ++ [metric]
      /\ id metric = nextId st
      /\ name metric = typed.
Proof.
  intros rt st typed Hname Htyped Hsmall.
  pose proof (not_blank _ Htyped) as Hnot.
  unfold run. cbn [fold_left step].
  eexists. split.
  - match goal with
    | |- context [addMetric ?s] => rewrite (addMetric_named s Hnot)
    end.
    cbn [metrics newMetricName newBaseValue].
    rewrite (addMetric_then_delete st (not_blank _ Hname) Hsmall). reflexivity.
  - split; reflexivity.
Qed.

Lemma addMetric_reuses_id_witness :
  exists metric,
    metrics (run Ref.runtime (naming "Leads")
               [AddMetric; DeleteMetric (nextId (naming "Leads"));
                SetNewMetricName "Orders"; AddMetric])
    = metrics (naming "Leads") ++ [metric]
    /\ id metric = nextId (naming "Leads")
    /\ name metric = "Orders".
Proof.
  apply (addMetric_reuses_id Ref.runtime (naming "Leads") "Orders").
  - discriminate.
  - discriminate.
  - reflexivity.
Defined.

(** ** [addValueEntry] and [addMetric], beyond the sorting *)

Lemma addValueEntry_unselected rt clock st :
  (forall m, In m (metrics st) -> selectedMetric st <> Some (id m)) ->
  metrics (addValueEntry rt clock st) = metrics st.
Proof.
  intros Hunknown.
  destruct (accepted_dec rt clock st) as [Hacc|Hsame]; [|now rewrite Hsame].
  rewrite (addValueEntry_accepted rt clock st Hacc). simpl.
  apply updatedMetrics_unselected. intros m Hm.
  apply isSelected_not. now apply Hunknown.
Qed.

(** X6.  Deleting the selected metric leaves the selection on its id; a
    value recorded then goes nowhere: no metric changes. *)
Theorem addValueEntry_after_deleteMetric :
  forall (rt : Runtime) (clock : Clock) (target : Z) (st : AppState),
    selectedMetric st = Some target ->
    selectedMetric (deleteMetric target st) = Some target
    /\ metrics (addValueEntry rt clock (deleteMetric target st))
       = metrics (deleteMetric target st).
Proof.
  intros rt clock target st Hsel. split; [exact Hsel|].
  apply addValueEntry_unselected. intros m Hm.
  apply deleteMetric_In in Hm. simpl. rewrite Hsel. intros Heq.
  injection Heq as Heq. destruct Hm as [_ Hm]. congruence.
Qed.

Lemma addValueEntry_after_deleteMetric_witness :
  selectedMetric (deleteMetric 1 unsortedState) = Some 1
  /\ metrics (addValueEntry Ref.runtime (always "2024-01-05")
                (deleteMetric 1 unsortedState))
     = metrics (deleteMetric 1 unsortedState).
Proof.
  apply (addValueEntry_after_deleteMetric Ref.runtime (always "2024-01-05") 1
           unsortedState).
  reflexivity.
Defined.

(** X7.  Recording is not repeated by a second click: the first call clears
    the typed value, and the second call (whenever it is made) changes
    nothing. *)
Theorem addValueEntry_twice :
  forall (rt : Runtime) (clock clock' : Clock) (st : AppState),
    addValueEntry rt clock' (addValueEntry rt clock st)
    = addValueEntry rt clock st.
Proof.
  intros rt clock clock' st.
  destruct (accepted_dec rt clock st) as [Hacc|Hsame].
  - apply addValueEntry_nothing_typed.
    now rewrite (addValueEntry_accepted rt clock st Hacc).
  - rewrite Hsame.
    destruct (accepted_dec rt clock' st) as [[Hsel Hval]|Hsame']; [|exact Hsame'].
    unfold addValueEntry in Hsame. rewrite Hsel in Hsame.
    apply String.eqb_neq in Hval. rewrite Hval in Hsame. simpl in Hsame.
    apply (f_equal newValue) in Hsame. simpl in Hsame.
    apply String.eqb_neq in Hval. congruence.
Qed.

(** X8.  Creating is not repeated by a second click either: the first call
    empties the name, which the second call refuses. *)
Theorem addMetric_twice :
  forall st : AppState, addMetric (addMetric st) = addMetric st.
Proof.
  intros st. unfold addMetric at 2 3.
  destruct (trim (newMetricName st) =? "")%string eqn:Hblank.
  - unfold addMetric. now rewrite Hblank.
  - reflexivity.
Qed.

Lemma updatedMetrics_identity rt clock sel typed reads ms :
  map (fun m => (id m, name m, baseValue m))
      (updatedMetrics rt clock sel typed reads ms)
  = map (fun m => (id m, name m, baseValue m)) ms.
Proof.
  revert reads. induction ms as [|m ms IH]; intros reads; [reflexivity|].
  simpl. destruct (isSelected sel m); simpl; now rewrite IH.
Qed.

(** X9.  [addValueEntry] never changes the id, the name or the base value
    of a metric, the selected one included. *)
Theorem addValueEntry_keeps_identity :
  forall (rt : Runtime) (clock : Clock) (st : AppState),
    map (fun m => (id m, name m, baseValue m))
        (metrics (addValueEntry rt clock st))
    = map (fun m => (id m, name m, baseValue m)) (metrics st).
Proof.
  intros rt clock st.
  destruct (accepted_dec rt clock st) as [Hacc|Hsame]; [|now rewrite Hsame].
  rewrite (addValueEntry_accepted rt clock st Hacc). simpl.
  apply updatedMetrics_identity.
Qed.

(** X10.  A recording loses and repeats nothing: whatever the dates are
    (readable or not), the samples of the selected metric after the call are
    the ones it had and the new one, one sample more. *)
Theorem addValueEntry_adds_one :
  forall (rt : Runtime) (clock : Clock) (st : AppState)
         (i : nat) (metric : Metric),
    accepted st ->
    nth_error (metrics st) i = Some metric ->
    selectedMetric st = Some (id metric) ->
    exists metric',
      nth_error (metrics (addValueEntry rt clock st)) i = Some metric'
      /\ Permutation
           (newEntry rt (clock (readsBefore st i)) st :: values metric)
           (values metric')
      /\ List.length (values metric') = S (List.length (values metric)).
Proof.
  intros rt clock st i metric [Hsel Hval] Hnth Htarget.
  exists (recorded rt (clock (readsBefore st i))
                   (clock (S (readsBefore st i))) st metric).
  assert (Hperm : Permutation
                    (newEntry rt (clock (readsBefore st i)) st :: values metric)
                    (values (recorded rt (clock (readsBefore st i))
                               (clock (S (readsBefore st i))) st metric))).
  { eapply perm_trans; [|apply Array_sort_Permutation].
    apply Permutation_cons_append. }
  split; [|split; [exact Hperm|]].
  - rewrite (addValueEntry_nth rt clock st i metric Hnth).
    rewrite Hsel. apply String.eqb_neq in Hval. rewrite Hval.
    apply isSelected_iff in Htarget. rewrite Htarget. reflexivity.
  - rewrite <- (Permutation_length Hperm). reflexivity.
Qed.

Lemma addValueEntry_adds_one_witness :
  exists metric',
    nth_error (metrics (addValueEntry Ref.runtime (always "no date")
                          unsortedState)) 0
    = Some metric'
    /\ Permutation
         (newEntry Ref.runtime "no date" unsortedState
          :: [ {| date := "2024-01-07"; value := 1%float |};
               {| date := "2024-01-05"; value := 2%float |};
               {| date := "2024-01-03"; value := 3%float |} ])
         (values metric')
    /\ List.length (values metric') = 4%nat.
Proof.
  apply (addValueEntry_adds_one Ref.runtime (always "no date") unsortedState 0
           {| id := 1; name := "Followers";
              values := [ {| date := "2024-01-07"; value := 1%float |};
                          {| date := "2024-01-05"; value := 2%float |};
                          {| date := "2024-01-03"; value := 3%float |} ];
              baseValue := 100%float;
              lastUpdated := Some "2024-01-03" |}).
  - split; [reflexivity|discriminate].
  - reflexivity.
  - reflexivity.
Defined.

Section Chronological.

Variable rt : Runtime.

Lemma insert_first x l :
  Forall (fun b => notLater rt x b = true) l -> insert (byDate rt) x l = x :: l.
Proof.
  intros Hle. destruct l as [|y l]; [reflexivity|]. simpl.
  inversion Hle as [|? ? Hxy _]; subst. unfold notLater in Hxy.
  destruct (Date_getTime rt (date x)) as [tx|] eqn:Ex; [|discriminate].
  destruct (Date_getTime rt (date y)) as [ty|] eqn:Ey; [|discriminate].
  rewrite (SortCompare_byDate rt x y tx ty Ex Ey).
  apply Z.leb_le in Hxy.
  destruct (Z.ltb_spec 0 (tx - ty)); [lia|reflexivity].
Qed.

(** Sorting what is sorted changes nothing. *)
Lemma Array_sort_sorted l :
  sortedByDate rt l -> Array_sort (byDate rt) l = l.
Proof.
  unfold sortedByDate. induction 1 as [|x l Hsorted IH Hle]; [reflexivity|].
  simpl. rewrite IH. now apply insert_first.
Qed.

Lemma sortedByDate_app_last l x :
  sortedByDate rt l -> Forall (fun a => notLater rt a x = true) l ->
  sortedByDate rt (l ++ [x]).
Proof.
  unfold sortedByDate. induction 1 as [|y l Hsorted IH Hle]; intros Hx; simpl.
  - repeat constructor.
  - inversion Hx as [|? ? Hyx Hx']; subst.
    constructor; [now apply IH|].
    apply Forall_app. split; [assumption|]. now constructor.
Qed.

End Chronological.

(** X11.  When the samples of the selected metric are in order and none is
    dated after the day the clock reads for the new sample, the new sample
    is simply put at the end: the order of the others is untouched, and the
    last sample, the one the estimator and the card take as the current one,
    is the new one. *)
Theorem addValueEntry_appends :
  forall (rt : Runtime) (clock : Clock) (st : AppState)
         (i : nat) (metric : Metric),
    accepted st ->
    nth_error (metrics st) i = Some metric ->
    selectedMetric st = Some (id metric) ->
    sortedByDate rt (values metric) ->
    Forall (fun v => notLater rt v
                       (newEntry rt (clock (readsBefore st i)) st) = true)
           (values metric) ->
    exists metric',
      nth_error (metrics (addValueEntry rt clock st)) i = Some metric'
      /\ values metric'
         = values metric ++ [newEntry rt (clock (readsBefore st i)) st]
      /\ shownCurrentValue metric' = inl (parseFloat rt (newValue st)).
Proof.
  intros rt clock st i metric [Hsel Hval] Hnth Htarget Hsorted Hlast.
  exists (recorded rt (clock (readsBefore st i))
                   (clock (S (readsBefore st i))) st metric).
  assert (Hvalues : values (recorded rt (clock (readsBefore st i))
                              (clock (S (readsBefore st i))) st metric)
                    = values metric
                      ++ [newEntry rt (clock (readsBefore st i)) st]).
  { simpl. apply Array_sort_sorted. now apply sortedByDate_app_last. }
  split; [|split; [exact Hvalues|]].
  - rewrite (addValueEntry_nth rt clock st i metric Hnth).
    rewrite Hsel. apply String.eqb_neq in Hval. rewrite Hval.
    apply isSelected_iff in Htarget. rewrite Htarget. reflexivity.
  - unfold shownCurrentValue. rewrite Hvalues, length_app. simpl List.length.
    replace (List.length (values metric) + 1 - 1)%nat
      with (List.length (values metric)) by lia.
    rewrite nth_error_app2, Nat.sub_diag by lia. simpl.
    destruct (Nat.ltb_spec 0 (List.length (values metric) + 1)); [reflexivity|lia].
Qed.

Lemma addValueEntry_appends_witness :
  exists metric',
    nth_error (metrics (addValueEntry Ref.runtime (always "2024-01-05")
                          chronologicalState)) 1
    = Some metric'
    /\ values metric' =
       [ {| date := "2024-01-03"; value := 1000%float |};
         {| date := "2024-01-05"; value := 1500%float |} ]
       ++ [newEntry Ref.runtime "2024-01-05" chronologicalState]
    /\ shownCurrentValue metric' = inl 2100%float.
Proof.
  apply (addValueEntry_appends Ref.runtime (always "2024-01-05")
           chronologicalState 1
           {| id := 2; name := "Revenue";
              values := [ {| date := "2024-01-03"; value := 1000%float |};
                          {| date := "2024-01-05"; value := 1500%float |} ];
              baseValue := 1000%float;
              lastUpdated := Some "2024-01-05" |}).
  - split; [reflexivity|discriminate].
  - reflexivity.
  - reflexivity.
  - repeat constructor.
  - repeat constructor.
Defined.

(** ** The estimator at the edges of binary64 *)

Section FloatEdges.

Local Open Scope float_scope.

Lemma SFcompare_refl x : x <> S754_nan -> SFcompare x x = Some Eq.
Proof.
  destruct x as [s|s| |s m e]; try destruct s; intros Hx; try reflexivity;
    try contradiction;
    rewrite ?SFcompare_finite_pos, ?SFcompare_finite_neg;
    now rewrite Z.compare_refl, Pos.compare_refl.
Qed.

Lemma is_nan_Prim2SF x : is_nan x = true -> Prim2SF x = S754_nan.
Proof.
  unfold is_nan. rewrite negb_true_iff, FloatAxioms.eqb_spec. unfold SFeqb.
  intros Hx. destruct (Prim2SF x) as [s|s| |s m e] eqn:E; try reflexivity;
    rewrite SFcompare_refl in Hx; discriminate.
Qed.

Lemma Prim2SF_nan x : Prim2SF x = S754_nan -> x = nan.
Proof. intros Hx. now apply Prim2SF_inj. Qed.

Lemma div_nan_l y : nan / y = nan.
Proof. apply Prim2SF_nan. now rewrite div_spec. Qed.

Lemma div_nan_r x : x / nan = nan.
Proof.
  apply Prim2SF_nan. rewrite div_spec.
  change (Prim2SF nan) with S754_nan. now destruct (Prim2SF x).
Qed.

Lemma sub_nan_l y : nan - y = nan.
Proof. apply Prim2SF_nan. now rewrite sub_spec. Qed.

Lemma sub_nan_r x : x - nan = nan.
Proof.
  apply Prim2SF_nan. rewrite sub_spec.
  change (Prim2SF nan) with S754_nan. now destruct (Prim2SF x).
Qed.

Lemma mul_nan_l y : nan * y = nan.
Proof. apply Prim2SF_nan. now rewrite mul_spec. Qed.

Lemma add_nan_r x : x + nan = nan.
Proof.
  apply Prim2SF_nan. rewrite add_spec.
  change (Prim2SF nan) with S754_nan. now destruct (Prim2SF x) as [[]|[]| |].
Qed.

Lemma ltb_nan_l y : (nan <? y) = false.
Proof. now rewrite FloatAxioms.ltb_spec. Qed.

(** A positive number is a positive finite number or plus infinity. *)
Lemma positive_Prim2SF x :
  (0 <? x) = true ->
  Prim2SF x = S754_infinity false \/ exists m e, Prim2SF x = S754_finite false m e.
Proof.
  rewrite FloatAxioms.ltb_spec. change (Prim2SF 0) with (S754_zero false).
  destruct (Prim2SF x) as [s|[]| |[] m e]; try discriminate; eauto.
Qed.

Lemma div_positive_zero x :
  (0 <? x) = true -> x / 0 = infinity /\ x / (-0) = neg_infinity.
Proof.
  intros Hx. split; apply Prim2SF_inj; rewrite div_spec;
    [change (Prim2SF 0) with (S754_zero false)
    |change (Prim2SF (-0)) with (S754_zero true)];
    destruct (positive_Prim2SF x Hx) as [->|(m & e & ->)]; reflexivity.
Qed.

End FloatEdges.

(** X12.  The estimator looks at the first and at the last sample only:
    whatever lies between them, the result is the one for these two. *)
Theorem calculateDoublingRate_ends_only :
  forall (rt : Runtime) (firstEntry lastEntry : MetricValue)
         (between : list MetricValue),
    calculateDoublingRate rt (firstEntry :: between ++ [lastEntry])
    = calculateDoublingRate rt [firstEntry; lastEntry].
Proof.
  intros rt firstEntry lastEntry between.
  rewrite (calculateDoublingRate_guard rt [firstEntry; lastEntry]
             firstEntry lastEntry (le_n 2) eq_refl eq_refl).
  apply calculateDoublingRate_guard.
  - simpl. rewrite length_app. simpl. lia.
  - reflexivity.
  - cbn [List.length]. rewrite length_app. cbn [List.length].
    replace (S (List.length between + 1) - 1)%nat
      with (S (List.length between)) by lia.
    cbn [nth_error]. rewrite nth_error_app2, Nat.sub_diag by lia. reflexivity.
Qed.

Lemma calculateDoublingRate_ends_only_witness :
  calculateDoublingRate Ref.runtime withMiddle
  = calculateDoublingRate Ref.runtime doubled.
Proof.
  exact (calculateDoublingRate_ends_only Ref.runtime
           {| date := "2024-01-01"; value := 100%float |}
           {| date := "2024-02-01"; value := 200%float |}
           [ {| date := "2024-01-09"; value := 5%float |};
             {| date := "2024-01-20"; value := 90000%float |} ]).
Defined.

(** X13.  A first or last value that is NaN is not caught by the guard
    ([NaN < 2] is false): the estimator goes on to the numeric result instead
    of returning a status. *)
Theorem calculateDoublingRate_nan_value :
  forall (rt : Runtime) (values : list MetricValue)
         (firstEntry lastEntry : MetricValue),
    (2 <= List.length values)%nat ->
    nth_error values 0 = Some firstEntry ->
    nth_error values (List.length values - 1) = Some lastEntry ->
    is_nan (value firstEntry) = true \/ is_nan (value lastEntry) = true ->
    calculateDoublingRate rt values = Rate (rateOf rt firstEntry lastEntry).
Proof.
  intros rt values firstEntry lastEntry Hlen Hfirst Hlast Hnan.
  rewrite (calculateDoublingRate_guard rt values _ _ Hlen Hfirst Hlast).
  assert (Hg : (value lastEntry / value firstEntry)%float = nan).
  { destruct Hnan as [Hnan|Hnan];
      apply is_nan_Prim2SF, Prim2SF_nan in Hnan; rewrite Hnan;
      [apply div_nan_r|apply div_nan_l]. }
  now rewrite Hg, ltb_nan_l.
Qed.

Lemma calculateDoublingRate_nan_value_witness :
  calculateDoublingRate Ref.runtime nanSample
  = Rate (rateOf Ref.runtime
            {| date := "2024-01-01"; value := nan |}
            {| date := "2024-02-01"; value := 200%float |}).
Proof.
  apply (calculateDoublingRate_nan_value Ref.runtime nanSample).
  - apply le_n.
  - reflexivity.
  - reflexivity.
  - left. reflexivity.
Defined.

(** X14.  When the date of the first or of the last sample cannot be read
    and the growth passes the guard, the result is numeric in form only: both
    durations are the text "NaN" and the projected date is that of an invalid
    [Date], whatever [Math.log2] returns. *)
Theorem calculateDoublingRate_invalid_date :
  forall (rt : Runtime) (values : list MetricValue)
         (firstEntry lastEntry : MetricValue),
    (2 <= List.length values)%nat ->
    nth_error values 0 = Some firstEntry ->
    nth_error values (List.length values - 1) = Some lastEntry ->
    (value lastEntry / value firstEntry <? 2)%float = false ->
    Date_getTime rt (date firstEntry) = None
    \/ Date_getTime rt (date lastEntry) = None ->
    calculateDoublingRate rt values =
    Rate {| daysPerDoubling := "NaN";
            monthsPerDoubling := "NaN";
            projectedNextDouble := toLocaleDateString rt nan |}.
Proof.
  intros rt values firstEntry lastEntry Hlen Hfirst Hlast Hg Hdate.
  rewrite (calculateDoublingRate_guard rt values _ _ Hlen Hfirst Hlast), Hg.
  unfold rateOf.
  assert (Hdiff : (getTime rt (date lastEntry) - getTime rt (date firstEntry))%float
                  = nan).
  { unfold getTime. destruct Hdate as [Hdate|Hdate]; rewrite Hdate; simpl;
      [apply sub_nan_r|apply sub_nan_l]. }
  rewrite Hdiff, !div_nan_l, !mul_nan_l, add_nan_r. reflexivity.
Qed.

Lemma calculateDoublingRate_invalid_date_witness :
  calculateDoublingRate Ref.runtime undated =
  Rate {| daysPerDoubling := "NaN";
          monthsPerDoubling := "NaN";
          projectedNextDouble := "Invalid Date" |}.
Proof.
  apply (calculateDoublingRate_invalid_date Ref.runtime undated
           {| date := "some day"; value := 100%float |}
           {| date := "2024-02-01"; value := 200%float |}).
  - apply le_n.
  - reflexivity.
  - reflexivity.
  - reflexivity.
  - left. reflexivity.
Defined.

(** X15.  A first value of zero is not refused: with a positive last value
    the growth is plus infinity for the zero [0], which passes the guard and
    gives the numeric result, and minus infinity for the zero [-0], which
    gives "Not doubled yet". *)
Theorem calculateDoublingRate_zero_base :
  forall (rt : Runtime) (values : list MetricValue)
         (firstEntry lastEntry : MetricValue),
    (2 <= List.length values)%nat ->
    nth_error values 0 = Some firstEntry ->
    nth_error values (List.length values - 1) = Some lastEntry ->
    (0 <? value lastEntry)%float = true ->
    (value firstEntry = 0%float ->
     calculateDoublingRate rt values = Rate (rateOf rt firstEntry lastEntry))
    /\ (value firstEntry = (-0)%float ->
        calculateDoublingRate rt values = Status "Not doubled yet").
Proof.
  intros rt values firstEntry lastEntry Hlen Hfirst Hlast Hpos.
  rewrite (calculateDoublingRate_guard rt values _ _ Hlen Hfirst Hlast).
  destruct (div_positive_zero (value lastEntry) Hpos) as [Hplus Hminus].
  split; intros ->; [rewrite Hplus|rewrite Hminus]; reflexivity.
Qed.

Lemma calculateDoublingRate_zero_base_witness :
  calculateDoublingRate Ref.runtime zeroBase
  = Rate (rateOf Ref.runtime
            {| date := "2024-01-01"; value := 0%float |}
            {| date := "2024-01-11"; value := 150%float |})
  /\ calculateDoublingRate Ref.runtime minusZeroBase = Status "Not doubled yet".
Proof.
  split.
  - apply (proj1 (calculateDoublingRate_zero_base Ref.runtime zeroBase
                    {| date := "2024-01-01"; value := 0%float |}
                    {| date := "2024-01-11"; value := 150%float |}
                    (le_n 2) eq_refl eq_refl eq_refl)).
    reflexivity.
  - apply (proj2 (calculateDoublingRate_zero_base Ref.runtime minusZeroBase
                    {| date := "2024-01-01"; value := (-0)%float |}
                    {| date := "2024-01-11"; value := 150%float |}
                    (le_n 2) eq_refl eq_refl eq_refl)).
    reflexivity.
Defined.

(** ** The derived rates, the cards and the chart *)

Lemma find_app {A : Type} (p : A -> bool) (l1 l2 : list A) :
  find p (l1 ++ l2) =
  match find p l1 with
  | Some x => Some x
  | None => find p l2
  end.
Proof.
  induction l1 as [|x l1 IH]; [reflexivity|].
  simpl. now destruct (p x).
Qed.

(** With unique ids, looking a metric up by its id finds it. *)
Lemma find_by_id ms m :
  NoDup (map id ms) -> In m ms ->
  find (fun m' => id m' =? id m) ms = Some m.
Proof.
  induction ms as [|x ms IH]; intros Huniq Hin; [destruct Hin|].
  simpl in *. inversion Huniq as [|? ? Hnotin Huniq']; subst.
  destruct Hin as [->|Hin].
  - now rewrite Z.eqb_refl.
  - destruct (Z.eqb_spec (id x) (id m)) as [Heq|_]; [|now apply IH].
    exfalso. apply Hnotin. rewrite Heq. now apply in_map.
Qed.

Lemma find_by_id_none ms k :
  (forall m, In m ms -> id m <> k) ->
  find (fun m' => id m' =? k) ms = None.
Proof.
  induction ms as [|x ms IH]; intros Habsent; [reflexivity|].
  simpl. destruct (Z.eqb_spec (id x) k) as [Heq|_].
  - exfalso. now apply (Habsent x (or_introl eq_refl)).
  - apply IH. intros m Hm. apply Habsent. now right.
Qed.

Section RatesFacts.

Variable rt : Runtime.

(** A read of the rates, from any starting object: the last metric with that
    id and two samples or more decides. *)
Lemma doublingRates_fold ms (acc : Rates) k :
  fold_left
    (fun newRates metric =>
       if (2 <=? List.length (values metric))%nat
       then setRate newRates (id metric)
                    (calculateDoublingRate rt (values metric))
       else newRates)
    ms acc k
  = match find (fun m => (id m =? k) && (2 <=? List.length (values m))%nat)
               (rev ms) with
    | Some m => Some (calculateDoublingRate rt (values m))
    | None => acc k
    end.
Proof.
  revert acc. induction ms as [|m ms IH]; intros acc; [reflexivity|].
  cbn [fold_left]. rewrite IH. cbn [rev]. rewrite find_app.
  destruct (find _ (rev ms)); [reflexivity|].
  match goal with
  | |- context [find ?p [m]] =>
      change (find p [m]) with (if p m then Some m else None)
  end.
  cbv beta. unfold setRate.
  destruct (2 <=? List.length (values m))%nat;
    rewrite ?(Z.eqb_sym k (id m)), ?andb_true_r, ?andb_false_r;
    [destruct (id m =? k)|]; reflexivity.
Qed.

Lemma doublingRates_read ms k :
  doublingRates rt ms k
  = match find (fun m => (id m =? k) && (2 <=? List.length (values m))%nat)
               (rev ms) with
    | Some m => Some (calculateDoublingRate rt (values m))
    | None => None
    end.
Proof. apply doublingRates_fold. Qed.

(** The estimator never returns an empty status. *)
Lemma calculateDoublingRate_status values s :
  calculateDoublingRate rt values = Status s ->
  s = "Need more data" \/ s = "Not doubled yet".
Proof.
  unfold calculateDoublingRate.
  destruct (List.length values <? 2)%nat; [intros [= <-]; now left|].
  destruct (nth_error values 0), (nth_error values (List.length values - 1));
    try (intros [= <-]; now left).
  destruct (_ <? 2)%float; [intros [= <-]; now right|discriminate].
Qed.

End RatesFacts.

Lemma find_all_false {A : Type} (p : A -> bool) (l : list A) :
  (forall x, In x l -> p x = false) -> find p l = None.
Proof.
  induction l as [|x l IH]; intros Hall; [reflexivity|].
  simpl. rewrite (Hall x (or_introl eq_refl)).
  apply IH. intros y Hy. apply Hall. now right.
Qed.

Lemma find_unique l m (p : Metric -> bool) :
  NoDup (map id l) -> In m l ->
  find (fun m' => (id m' =? id m) && p m') l
  = if p m then Some m else None.
Proof.
  induction l as [|x l IH]; intros Hu Hin; [destruct Hin|].
  simpl in Hu. inversion Hu as [|? ? Hnotin Hu']; subst.
  assert (Hother : forall y, In y l -> (id y =? id x) = false).
  { intros y Hy. apply Z.eqb_neq. intros Heq. apply Hnotin.
    rewrite <- Heq. now apply in_map. }
  destruct Hin as [->|Hin]; cbn [find].
  - rewrite Z.eqb_refl. simpl. destruct (p m); [reflexivity|].
    apply find_all_false. intros y Hy. now rewrite (Hother y Hy).
  - rewrite Z.eqb_sym, (Hother m Hin). simpl. now apply IH.
Qed.

Lemma find_rev_unique ms m (p : Metric -> bool) :
  NoDup (map id ms) -> In m ms ->
  find (fun m' => (id m' =? id m) && p m') (rev ms)
  = if p m then Some m else None.
Proof.
  intros Huniq Hin. apply find_unique; [|now apply in_rev in Hin].
  rewrite map_rev. eapply Permutation_NoDup; [apply Permutation_rev|exact Huniq].
Qed.

Lemma doublingRates_unique rt ms m :
  NoDup (map id ms) -> In m ms ->
  doublingRates rt ms (id m)
  = if (2 <=? List.length (values m))%nat
    then Some (calculateDoublingRate rt (values m)) else None.
Proof.
  intros Huniq Hm. rewrite doublingRates_read.
  rewrite (find_rev_unique ms m
             (fun m' => (2 <=? List.length (values m'))%nat) Huniq Hm).
  now destruct (2 <=? List.length (values m))%nat.
Qed.

(** X16.  In a store with unique ids the rate kept for a metric is the
    estimator's result for its samples when it has two or more, and there is
    none when it has fewer; for an id that no metric has there is none. *)
Theorem doublingRates_of_metric :
  forall (rt : Runtime) (st : AppState),
    uniqueIds st ->
    (forall m, In m (metrics st) ->
       doublingRates rt (metrics st) (id m)
       = if (2 <=? List.length (values m))%nat
         then Some (calculateDoublingRate rt (values m)) else None)
    /\ (forall k, (forall m, In m (metrics st) -> id m <> k) ->
          doublingRates rt (metrics st) k = None).
Proof.
  intros rt st Huniq. split.
  - intros m Hm. now apply doublingRates_unique.
  - intros k Habsent. rewrite doublingRates_read.
    destruct (find _ (rev (metrics st))) as [m|] eqn:Hfind; [|reflexivity].
    apply find_some in Hfind. destruct Hfind as [Hin Hk].
    apply in_rev in Hin. apply andb_prop in Hk. destruct Hk as [Hk _].
    apply Z.eqb_eq in Hk. now destruct (Habsent m Hin).
Qed.

Lemma doublingRates_of_metric_witness :
  (forall m, In m (metrics chronologicalState) ->
     doublingRates Ref.runtime (metrics chronologicalState) (id m)
     = if (2 <=? List.length (values m))%nat
       then Some (calculateDoublingRate Ref.runtime (values m)) else None)
  /\ (forall k, (forall m, In m (metrics chronologicalState) -> id m <> k) ->
        doublingRates Ref.runtime (metrics chronologicalState) k = None).
Proof.
  apply (doublingRates_of_metric Ref.runtime chronologicalState).
  unfold uniqueIds. simpl. repeat constructor; simpl; intuition discriminate.
Defined.

(** X17.  In a store with unique ids every card shows, as doubling rate,
    exactly what the estimator returns for the samples of its metric: the
    "Need more data" of a card without a rate is the status the estimator
    has for fewer than two samples. *)
Theorem shownDoublingRate_is_estimate :
  forall (rt : Runtime) (st : AppState) (m : Metric),
    uniqueIds st ->
    In m (metrics st) ->
    shownDoublingRate (doublingRates rt (metrics st)) m
    = calculateDoublingRate rt (values m).
Proof.
  intros rt st m Huniq Hm. unfold shownDoublingRate.
  rewrite (doublingRates_unique rt (metrics st) m Huniq Hm).
  destruct (Nat.leb_spec 2 (List.length (values m))) as [Hlen|Hlen].
  - destruct (calculateDoublingRate rt (values m)) as [s|r] eqn:Hres;
      [|reflexivity].
    destruct (calculateDoublingRate_status rt _ s Hres) as [-> | ->];
      reflexivity.
  - symmetry. now apply calculateDoublingRate_short.
Qed.

Lemma shownDoublingRate_is_estimate_witness :
  shownDoublingRate
    (doublingRates Ref.runtime (metrics chronologicalState))
    {| id := 2; name := "Revenue";
       values := [ {| date := "2024-01-03"; value := 1000%float |};
                   {| date := "2024-01-05"; value := 1500%float |} ];
       baseValue := 1000%float;
       lastUpdated := Some "2024-01-05" |}
  = calculateDoublingRate Ref.runtime
      [ {| date := "2024-01-03"; value := 1000%float |};
        {| date := "2024-01-05"; value := 1500%float |} ].
Proof.
  apply (shownDoublingRate_is_estimate Ref.runtime chronologicalState).
  - unfold uniqueIds. simpl. repeat constructor; simpl; intuition discriminate.
  - right. left. reflexivity.
Defined.

(** X18.  The text "Need more data" is never kept among the rates: the
    effect asks the estimator for metrics with two samples or more only, so
    a rate that is kept is "Not doubled yet" or numeric. *)
Theorem doublingRates_never_short :
  forall (rt : Runtime) (ms : list Metric) (k : Z) (e : Estimate),
    doublingRates rt ms k = Some e ->
    e = Status "Not doubled yet" \/ exists r, e = Rate r.
Proof.
  intros rt ms k e. rewrite doublingRates_read.
  destruct (find _ (rev ms)) as [m|] eqn:Hfind; [|discriminate].
  intros [= <-]. apply find_some in Hfind. destruct Hfind as [_ Hm].
  apply andb_prop in Hm. destruct Hm as [_ Hlen]. apply Nat.leb_le in Hlen.
  unfold calculateDoublingRate.
  destruct (Nat.ltb_spec (List.length (values m)) 2) as [Hlt|_]; [lia|].
  destruct (nth_error (values m) 0) as [firstEntry|] eqn:Hfirst.
  - destruct (nth_error (values m) (List.length (values m) - 1))
      as [lastEntry|] eqn:Hlast.
    + destruct (_ <? 2)%float; [now left|right; eauto].
    + apply nth_error_None in Hlast. lia.
  - apply nth_error_None in Hfirst. lia.
Qed.

Lemma doublingRates_never_short_witness :
  calculateDoublingRate Ref.runtime
    [ {| date := "2024-01-03"; value := 1000%float |};
      {| date := "2024-01-05"; value := 1500%float |} ]
  = Status "Not doubled yet"
  \/ exists r,
       calculateDoublingRate Ref.runtime
         [ {| date := "2024-01-03"; value := 1000%float |};
           {| date := "2024-01-05"; value := 1500%float |} ]
       = Rate r.
Proof.
  apply (doublingRates_never_short Ref.runtime (metrics chronologicalState) 2).
  reflexivity.
Defined.

Lemma map_entries (l : list MetricValue) :
  map (fun entry => {| date := date entry; value := value entry |}) l = l.
Proof.
  induction l as [|[d v] l IH]; [reflexivity|]. simpl. now rewrite IH.
Qed.

(** X19.  [getChartData] is empty for an id that no metric has and for a
    metric with fewer than two samples; in a store with unique ids the chart
    of a card, which is drawn from two samples on, plots exactly the samples
    of its metric, in their stored order. *)
Theorem getChartData_of_metric :
  forall (st : AppState),
    (forall k, (forall m, In m (metrics st) -> id m <> k) ->
               getChartData st k = [])
    /\ (forall m, uniqueIds st -> In m (metrics st) ->
          getChartData st (id m)
          = (if (List.length (values m) <? 2)%nat then [] else values m)
          /\ shownChart st m
             = if (1 <? List.length (values m))%nat
               then Some (values m) else None).
Proof.
  intros st. split.
  - intros k Habsent. unfold getChartData.
    now rewrite (find_by_id_none (metrics st) k Habsent).
  - intros m Huniq Hm.
    assert (Hdata : getChartData st (id m)
                    = if (List.length (values m) <? 2)%nat
                      then [] else values m).
    { unfold getChartData. rewrite (find_by_id (metrics st) m Huniq Hm).
      now rewrite map_entries. }
    split; [exact Hdata|].
    unfold shownChart. rewrite Hdata.
    destruct (Nat.ltb_spec 1 (List.length (values m))) as [Hlen|Hlen];
      [|reflexivity].
    destruct (Nat.ltb_spec (List.length (values m)) 2); [lia|reflexivity].
Qed.

Lemma getChartData_of_metric_witness :
  getChartData chronologicalState 7 = []
  /\ getChartData chronologicalState 1 = []
  /\ shownChart chronologicalState
       {| id := 2; name := "Revenue";
          values := [ {| date := "2024-01-03"; value := 1000%float |};
                      {| date := "2024-01-05"; value := 1500%float |} ];
          baseValue := 1000%float;
          lastUpdated := Some "2024-01-05" |}
     = Some [ {| date := "2024-01-03"; value := 1000%float |};
              {| date := "2024-01-05"; value := 1500%float |} ].
Proof.
  assert (Huniq : uniqueIds chronologicalState).
  { unfold uniqueIds. simpl. repeat constructor; simpl; intuition discriminate. }
  split; [|split].
  - apply (proj1 (getChartData_of_metric chronologicalState)).
    intros m [<-|[<-|[]]]; discriminate.
  - apply (proj1 (proj2 (getChartData_of_metric chronologicalState)
                   {| id := 1; name := "Followers"; values := [];
                      baseValue := 100%float; lastUpdated := None |}
                   Huniq (or_introl eq_refl))).
  - apply (proj2 (proj2 (getChartData_of_metric chronologicalState)
                   {| id := 2; name := "Revenue";
                      values := [ {| date := "2024-01-03"; value := 1000%float |};
                                  {| date := "2024-01-05"; value := 1500%float |} ];
                      baseValue := 1000%float;
                      lastUpdated := Some "2024-01-05" |}
                   Huniq (or_intror (or_introl eq_refl)))).
Defined.

(** ** Sessions *)

(** What every event keeps, a session keeps. *)
Lemma run_invariant (rt : Runtime) (Inv : AppState -> Prop)
    (allowed : Action -> Prop) :
  (forall st a, allowed a -> Inv st -> Inv (step rt st a)) ->
  forall actions st,
    Forall allowed actions -> Inv st -> Inv (run rt st actions).
Proof.
  intros Hstep actions.
  induction actions as [|a actions IH]; intros st Hall Hinv; [exact Hinv|].
  inversion Hall as [|? ? Ha Hall']; subst.
  unfold run. simpl. apply IH; [assumption|]. now apply Hstep.
Qed.

Lemma deleteMetric_uniqueIds target st :
  uniqueIds st -> uniqueIds (deleteMetric target st).
Proof.
  unfold uniqueIds. rewrite deleteMetric_metrics.
  induction (metrics st) as [|m ms IH]; intros Huniq; [constructor|].
  simpl in *. inversion Huniq as [|? ? Hfresh Huniq']; subst.
  destruct (negb (id m =? target)); [|now apply IH].
  simpl. constructor; [|now apply IH].
  intros Hin. apply Hfresh. apply in_map_iff in Hin.
  destruct Hin as (m' & Hid & Hm'). apply filter_In in Hm'.
  rewrite <- Hid. apply in_map. tauto.
Qed.

Lemma Forall_filter_keeps {A : Type} (P : A -> Prop) (p : A -> bool) l :
  Forall P l -> Forall P (filter p l).
Proof.
  rewrite !Forall_forall. intros Hall x Hx. apply filter_In in Hx.
  now apply Hall.
Qed.

Lemma addMetric_cases st :
  addMetric st = st
  \/ metrics (addMetric st) =
     metrics st ++
     [ {| id := nextId st; name := newMetricName st; values := [];
          baseValue := newBaseValue st; lastUpdated := None |} ].
Proof.
  unfold addMetric. destruct (trim (newMetricName st) =? "")%string;
    [now left|now right].
Qed.

Lemma Math_max0_fold_le ids acc b :
  acc <= b -> (forall x, In x ids -> x <= b) -> fold_left Z.max ids acc <= b.
Proof.
  revert acc. induction ids as [|y ids IH]; intros acc Hacc Hall; [exact Hacc|].
  simpl. apply IH.
  - pose proof (Hall y (or_introl eq_refl)). lia.
  - intros x Hx. apply Hall. now right.
Qed.

(** The ids of the store are unique and lie between 1 and [b]. *)
Lemma step_ids rt st a b :
  0 <= b < 2 ^ 53 ->
  uniqueIds st /\ Forall (fun m => 1 <= id m <= b) (metrics st) ->
  uniqueIds (step rt st a)
  /\ Forall (fun m => 1 <= id m <= b + 1) (metrics (step rt st a)).
Proof.
  intros Hb [Huniq Hpos]. unfold uniqueIds in *.
  assert (Hpos' : Forall (fun m => 1 <= id m <= b + 1) (metrics st)).
  { eapply Forall_impl; [|exact Hpos]. intros m Hm. cbv beta in Hm. lia. }
  destruct a as [typed|parsed|parsed|typed| |clock|target]; simpl;
    try (split; assumption).
  - destruct (addMetric_cases st) as [->|Hadd]; [now split|].
    assert (Hmax : Math_max0 (map id (metrics st)) <= b).
    { apply Math_max0_fold_le; [lia|]. intros x Hx. apply in_map_iff in Hx.
      destruct Hx as (m & <- & Hm). rewrite Forall_forall in Hpos.
      apply (Hpos m Hm). }
    assert (Hnext : nextId st = Math_max0 (map id (metrics st)) + 1).
    { apply Math_max0_succ. lia. }
    pose proof (Math_max0_nonneg (map id (metrics st))) as Hnonneg.
    rewrite Hadd. split.
    + rewrite map_app. simpl.
      apply Permutation_NoDup with (l := nextId st :: map id (metrics st)).
      * apply Permutation_cons_append.
      * constructor; [|exact Huniq]. intros Hin.
        pose proof (Math_max0_upper (map id (metrics st)) _ Hin). lia.
    + apply Forall_app. split; [exact Hpos'|]. constructor; [|constructor].
      simpl. lia.
  - rewrite addValueEntry_ids. split; [exact Huniq|].
    rewrite Forall_forall in *. intros m Hm.
    assert (Hid : In (id m) (map id (metrics (addValueEntry rt clock st))))
      by now apply in_map.
    rewrite addValueEntry_ids in Hid. apply in_map_iff in Hid.
    destruct Hid as (m0 & <- & Hm0). now apply Hpos'.
  - split; [now apply deleteMetric_uniqueIds|now apply Forall_filter_keeps].
Qed.

Lemma run_ids rt actions :
  forall st b,
    0 <= b ->
    b + Z.of_nat (List.length actions) <= 2 ^ 53 ->
    uniqueIds st /\ Forall (fun m => 1 <= id m <= b) (metrics st) ->
    uniqueIds (run rt st actions)
    /\ Forall (fun m => 1 <= id m <= b + Z.of_nat (List.length actions))
              (metrics (run rt st actions)).
Proof.
  induction actions as [|a actions IH]; intros st b Hb Hlen Hinv.
  - simpl. now rewrite Z.add_0_r.
  - simpl List.length in *. rewrite Nat2Z.inj_succ in *.
    unfold run. simpl fold_left.
    replace (b + Z.succ (Z.of_nat (List.length actions)))
      with ((b + 1) + Z.of_nat (List.length actions)) by lia.
    apply IH; [lia|lia|]. apply step_ids; [lia|exact Hinv].
Qed.

Lemma session_unique rt actions :
  3 + Z.of_nat (List.length actions) <= 2 ^ 53 ->
  uniqueIds (run rt initialState actions)
  /\ Forall (fun m => 1 <= id m <= 3 + Z.of_nat (List.length actions))
            (metrics (run rt initialState actions)).
Proof.
  intros Hlen. apply run_ids; [lia|exact Hlen|]. split.
  - unfold uniqueIds. simpl. repeat constructor; simpl; intuition discriminate.
  - simpl. repeat constructor; simpl; lia.
Qed.

(** X20.  In a session that starts from the built-in store (of at most
    2^53 - 3 events, so that the ids stay below 2^53), whatever is typed,
    chosen and clicked, the ids of the metrics stay unique and are all 1 or
    more: the id 0, which the guard of [addValueEntry] takes for no
    selection, is the id of no metric. *)
Theorem session_ids :
  forall (rt : Runtime) (actions : list Action),
    3 + Z.of_nat (List.length actions) <= 2 ^ 53 ->
    uniqueIds (run rt initialState actions)
    /\ Forall (fun m => 1 <= id m /\ falsy (Some (id m)) = false)
              (metrics (run rt initialState actions)).
Proof.
  intros rt actions Hlen.
  destruct (session_unique rt actions Hlen) as [Huniq Hpos].
  split; [exact Huniq|].
  eapply Forall_impl; [|exact Hpos]. intros m Hm. cbv beta in Hm.
  split; [lia|]. simpl. apply Z.eqb_neq. lia.
Qed.

Lemma session_ids_witness :
  uniqueIds (run Ref.runtime initialState backdatedSession)
  /\ Forall (fun m => 1 <= id m /\ falsy (Some (id m)) = false)
            (metrics (run Ref.runtime initialState backdatedSession)).
Proof.
  apply (session_ids Ref.runtime backdatedSession).
  vm_compute. discriminate.
Defined.

Lemma addValueEntry_Forall rt clock st (P : Metric -> Prop) :
  (forall m day day', In m (metrics st) -> P m -> P (recorded rt day day' st m)) ->
  Forall P (metrics st) -> Forall P (metrics (addValueEntry rt clock st)).
Proof.
  intros Hrec Hall.
  destruct (accepted_dec rt clock st) as [Hacc|Hsame]; [|now rewrite Hsame].
  rewrite (addValueEntry_accepted rt clock st Hacc). simpl.
  rewrite Forall_forall in *. intros m' Hm'.
  apply updatedMetrics_In in Hm'.
  destruct Hm' as (m & Hm & [->|(k & ->)]); [now apply Hall|].
  apply (Hrec m (clock k) (clock (S k)) Hm). now apply Hall.
Qed.

Lemma addMetric_Forall st (P : Metric -> Prop) :
  (forall i n b, P {| id := i; name := n; values := []; baseValue := b;
                      lastUpdated := None |}) ->
  Forall P (metrics st) -> Forall P (metrics (addMetric st)).
Proof.
  intros Hnew Hall. destruct (addMetric_cases st) as [->|Hadd]; [exact Hall|].
  rewrite Hadd. apply Forall_app. split; [exact Hall|].
  constructor; [apply Hnew|constructor].
Qed.

Lemma newEntry_recorded rt day day' st m :
  In (newEntry rt day st) (values (recorded rt day day' st m)).
Proof.
  eapply Permutation_in; [apply Array_sort_Permutation|].
  apply in_or_app. right. now left.
Qed.

Lemma session_consistent rt actions :
  Forall lastUpdatedConsistent (metrics (run rt initialState actions)).
Proof.
  apply (run_invariant rt
           (fun st => Forall lastUpdatedConsistent (metrics st))
           (fun _ => True)).
  - intros st a _ Hall.
    destruct a as [typed|parsed|parsed|typed| |clock|target]; simpl;
      try assumption.
    + apply addMetric_Forall; [|exact Hall]. intros i n b. now split.
    + apply addValueEntry_Forall; [|exact Hall].
      intros m day day' _ _. split; [discriminate|].
      intros Hempty. pose proof (newEntry_recorded rt day day' st m) as Hin.
      rewrite Hempty in Hin. destruct Hin.
    + now apply Forall_filter_keeps.
  - apply Forall_forall. trivial.
  - simpl. repeat constructor.
Qed.

(** X21.  In a session that starts from the built-in store, at every moment
    and whatever the clock reads, [lastUpdated] is absent for the metrics
    without a sample and present for all the others. *)
Theorem session_lastUpdated :
  forall (rt : Runtime) (actions : list Action),
    Forall lastUpdatedConsistent (metrics (run rt initialState actions)).
Proof. intros rt actions. apply session_consistent. Qed.

Section InOrder.

Variable rt : Runtime.

Lemma step_samplesInOrder st a :
  match a with
  | AddValueEntry clock => validClock rt clock
  | _ => True
  end ->
  samplesInOrder rt st -> samplesInOrder rt (step rt st a).
Proof.
  unfold samplesInOrder. intros Hday Hall.
  destruct a as [typed|parsed|parsed|typed| |clock|target]; simpl;
    try assumption.
  - apply addMetric_Forall; [|exact Hall].
    intros i n b. split; constructor.
  - assert (Hvalid : forall m' , In m' (metrics (addValueEntry rt clock st)) ->
                sortedByDate rt (values m') /\ Forall (validDate rt) (values m')).
    { intros m' Hm'.
      destruct (accepted_dec rt clock st) as [Hacc|Hsame].
      - rewrite (addValueEntry_accepted rt clock st Hacc) in Hm'. simpl in Hm'.
        apply updatedMetrics_In in Hm'. rewrite Forall_forall in Hall.
        destruct Hm' as (m & Hm & [->|(k & ->)]); [now apply Hall|].
        destruct (Hall m Hm) as [_ Hok]. simpl.
        assert (Hall' : Forall (validDate rt)
                          (values m ++ [ {| date := clock k;
                                            value := parseFloat rt (newValue st) |} ])).
        { apply Forall_app. split; [exact Hok|].
          constructor; [apply Hday|constructor]. }
        split.
        + now apply Array_sort_sortedByDate.
        + eapply Permutation_Forall; [apply Array_sort_Permutation|exact Hall'].
      - rewrite Hsame in Hm'. rewrite Forall_forall in Hall. now apply Hall. }
    apply Forall_forall. exact Hvalid.
  - now apply Forall_filter_keeps.
Qed.

End InOrder.

(** X22.  In a session that starts from the built-in store and records on
    days that [Date] can read, the samples of every metric are at every
    moment sorted by date, in whatever order the days come. *)
Theorem session_samplesInOrder :
  forall (rt : Runtime) (actions : list Action),
    validDays rt actions ->
    samplesInOrder rt (run rt initialState actions).
Proof.
  intros rt actions Hdays.
  apply (run_invariant rt (samplesInOrder rt)
           (fun a => match a with
                     | AddValueEntry clock => validClock rt clock
                     | _ => True
                     end)).
  - intros st a. apply step_samplesInOrder.
  - exact Hdays.
  - unfold samplesInOrder. simpl. repeat constructor.
Qed.

Lemma session_samplesInOrder_witness :
  samplesInOrder Ref.runtime (run Ref.runtime initialState backdatedSession).
Proof.
  apply (session_samplesInOrder Ref.runtime backdatedSession).
  unfold validDays, backdatedSession, validClock, always.
  repeat constructor; discriminate.
Defined.

(** What the session of the witness leaves in the store. *)
Example backdatedSession_result :
  map (fun m => (id m, map date (values m), lastUpdated m))
      (metrics (run Ref.runtime initialState backdatedSession))
  = [ (2, ["2024-03-02"; "2024-03-09"], Some "2024-03-02");
      (3, [], None);
      (4, [], None) ].
Proof. reflexivity. Qed.

(** X23.  In a session that starts from the built-in store (of at most
    2^53 - 3 events), the card of a metric without a sample shows
    "No data yet" as current value, "Never" as last update and
    "Need more data" as doubling rate, and draws no chart. *)
Theorem session_empty_card :
  forall (rt : Runtime) (actions : list Action) (m : Metric),
    3 + Z.of_nat (List.length actions) <= 2 ^ 53 ->
    In m (metrics (run rt initialState actions)) ->
    values m = [] ->
    shownCurrentValue m = inr "No data yet"
    /\ shownLastUpdated m = "Never"
    /\ shownDoublingRate
         (doublingRates rt (metrics (run rt initialState actions))) m
       = Status "Need more data"
    /\ shownChart (run rt initialState actions) m = None.
Proof.
  intros rt actions m Hlen Hm Hempty.
  pose proof (session_consistent rt actions) as Hinv.
  destruct (session_unique rt actions Hlen) as [Hids _].
  rewrite Forall_forall in Hinv. specialize (Hinv m Hm).
  split; [|split; [|split]].
  - unfold shownCurrentValue. now rewrite Hempty.
  - unfold shownLastUpdated. now rewrite (proj2 Hinv Hempty).
  - unfold shownDoublingRate.
    rewrite (doublingRates_unique rt _ m Hids Hm), Hempty. reflexivity.
  - unfold shownChart. now rewrite Hempty.
Qed.

Lemma session_empty_card_witness :
  shownCurrentValue
    {| id := 4; name := "Leads"; values := []; baseValue := 100%float;
       lastUpdated := None |} = inr "No data yet"
  /\ shownLastUpdated
       {| id := 4; name := "Leads"; values := []; baseValue := 100%float;
          lastUpdated := None |} = "Never"
  /\ shownDoublingRate
       (doublingRates Ref.runtime
          (metrics (run Ref.runtime initialState backdatedSession)))
       {| id := 4; name := "Leads"; values := []; baseValue := 100%float;
          lastUpdated := None |}
     = Status "Need more data"
  /\ shownChart (run Ref.runtime initialState backdatedSession)
       {| id := 4; name := "Leads"; values := []; baseValue := 100%float;
          lastUpdated := None |} = None.
Proof.
  apply (session_empty_card Ref.runtime backdatedSession).
  - vm_compute. discriminate.
  - right. right. left. reflexivity.
  - reflexivity.
Defined.
